(** * scenedetect.video_splitter

    A shallow embedding of [scenedetect/video_splitter.py]: the two
    availability probes ([is_mkvmerge_available], [is_ffmpeg_available]) and
    the two splitters ([split_video_mkvmerge], [split_video_ffmpeg]), with the
    Python string operations they rely on.

    Child processes, the wall clock, the optional progress-bar library and the
    log are effects: the external world is an [environment] of oracles, and the
    effects a call leaves behind are collected in a [world] that is threaded
    through the code. *)

From Stdlib Require Import String Ascii List ZArith QArith Bool Arith Lia.
From Stdlib Require Import DecimalString.
From Stdlib Require DecimalFacts DecimalNat.
Import ListNotations.

Local Close Scope Q_scope.
Local Open Scope string_scope.
Local Open Scope list_scope.

(** ** Python strings *)

Module PyStr.

(** Membership of a character in a string. *)
Fixpoint has_char (a : ascii) (s : string) : bool :=
  match s with
  | EmptyString => false
  | String c s' => Ascii.eqb a c || has_char a s'
  end.

(** [occurs_in old s]: [old] is a substring of [s] (Python's [old in s]). *)
Fixpoint occurs_in (old s : string) : bool :=
  prefix old s ||
  match s with
  | EmptyString => false
  | String _ s' => occurs_in old s'
  end.

(** [s.endswith(c)] for a single character. *)
Fixpoint ends_with (a : ascii) (s : string) : bool :=
  match s with
  | EmptyString => false
  | String c EmptyString => Ascii.eqb a c
  | String _ s' => ends_with a s'
  end.

(** The scanning loop of [str.replace] for a non-empty [old]: walk [s] from
    the left; where [old] starts, emit [new] and skip the rest of the match
    ([skip] counts the characters of the match still to be dropped), so that
    occurrences are replaced left to right and never overlap. *)
Fixpoint replace_from (old new : string) (skip : nat) (s : string) : string :=
  match s with
  | EmptyString => EmptyString
  | String c s' =>
      match skip with
      | S k => replace_from old new k s'
      | O =>
          if prefix old s
          then new ++ replace_from old new (String.length old - 1) s'
          else String c (replace_from old new 0 s')
      end
  end.

(** [str.replace] with an empty [old]: [new] goes before every character and
    at the end. *)
Fixpoint interleave (new s : string) : string :=
  match s with
  | EmptyString => new
  | String c s' => new ++ String c (interleave new s')
  end.

(** [s.replace(old, new)]. *)
Definition replace (s old new : string) : string :=
  match old with
  | EmptyString => interleave new s
  | String _ _ => replace_from old new 0 s
  end.

(** [s.split(sep)] for a one-character separator: consecutive separators
    give empty fields, and the empty string gives one empty field. *)
Fixpoint split_from (sep : ascii) (field s : string) : list string :=
  match s with
  | EmptyString => [field]
  | String c s' =>
      if Ascii.eqb c sep
      then field :: split_from sep EmptyString s'
      else split_from sep (field ++ String c EmptyString) s'
  end.

Definition split (s : string) (sep : ascii) : list string :=
  split_from sep EmptyString s.

(** [sep.join(parts)]. *)
Definition join (sep : string) (parts : list string) : string :=
  String.concat sep parts.

(** [str(n)] for a non-negative integer. *)
Definition str_of_nat (n : nat) : string :=
  NilEmpty.string_of_uint (Nat.to_uint n).

Fixpoint zeros (k : nat) : string :=
  match k with
  | O => EmptyString
  | S k' => String "0" (zeros k')
  end.

(** ['%0<width>d' % n] for a non-negative [n]: the decimal digits of [n],
    filled with zeros on the left up to [width] characters, never cut. *)
Definition format_0d (width n : nat) : string :=
  let digits := str_of_nat n in
  zeros (width - String.length digits) ++ digits.

(** *** string.Template *)

Definition is_letter (c : ascii) : bool :=
  let n := nat_of_ascii c in
  ((65 <=? n)%nat && (n <=? 90)%nat) || ((97 <=? n)%nat && (n <=? 122)%nat).

Definition is_digit (c : ascii) : bool :=
  let n := nat_of_ascii c in (48 <=? n)%nat && (n <=? 57)%nat.

(** First and later characters of an identifier, [[_a-z][_a-z0-9]*] matched
    without regard to case. *)
Definition is_id_start (c : ascii) : bool := Ascii.eqb c "_" || is_letter c.
Definition is_id_char (c : ascii) : bool := is_id_start c || is_digit c.

Definition mapping := list (string * string).

Fixpoint lookup (m : mapping) (key : string) : option string :=
  match m with
  | [] => None
  | (k, v) :: m' => if String.eqb k key then Some v else lookup m' key
  end.

(** Where the scanner of the template pattern stands: in plain text, just
    after a [$], inside [$identifier], just after [${], or inside
    [${identifier]. *)
Inductive scan_state : Type :=
| Text
| Dollar
| Named (id : string)
| Brace
| Braced (id : string).

(** [safe_substitute] keeps a placeholder whose name is not in the mapping. *)
Definition subst_named (m : mapping) (id : string) : string :=
  match lookup m id with
  | Some v => v
  | None => "$" ++ id
  end.

Definition subst_braced (m : mapping) (id : string) : string :=
  match lookup m id with
  | Some v => v
  | None => "${" ++ id ++ "}"
  end.

(** One left-to-right pass over the template: [$$] is an escaped [$],
    [$identifier] and [${identifier}] are placeholders with the longest
    possible identifier, and any other [$] stays as it is.  Substituted
    values are not scanned again. *)
Fixpoint scan (m : mapping) (st : scan_state) (s : string) : string :=
  match s with
  | EmptyString =>
      match st with
      | Text => EmptyString
      | Dollar => "$"
      | Named id => subst_named m id
      | Brace => "${"
      | Braced id => "${" ++ id
      end
  | String c s' =>
      let plain :=
        if Ascii.eqb c "$" then scan m Dollar s' else String c (scan m Text s') in
      match st with
      | Text => plain
      | Dollar =>
          if Ascii.eqb c "$" then "$" ++ scan m Text s'
          else if is_id_start c then scan m (Named (String c EmptyString)) s'
          else if Ascii.eqb c "{" then scan m Brace s'
          else "$" ++ plain
      | Named id =>
          if is_id_char c then scan m (Named (id ++ String c EmptyString)) s'
          else subst_named m id ++ plain
      | Brace =>
          if is_id_start c then scan m (Braced (String c EmptyString)) s'
          else "${" ++ plain
      | Braced id =>
          if is_id_char c then scan m (Braced (id ++ String c EmptyString)) s'
          else if Ascii.eqb c "}" then subst_braced m id ++ scan m Text s'
          else "${" ++ id ++ plain
      end
  end.

(** [Template(template).safe_substitute] with the keyword arguments [m]. *)
Definition safe_substitute (template : string) (m : mapping) : string :=
  scan m Text template.

End PyStr.

(** ** Exceptions and results *)

(** The exceptions the module raises or handles. *)
Inductive exn : Type :=
| OSError
| CommandTooLong
| NotImplementedError
| ZeroDivisionError.

(** A Python call either returns a value or raises. *)
Inductive result (A : Type) : Type :=
| Ret (a : A)
| Raise (e : exn).

Arguments Ret {A} a.
Arguments Raise {A} e.

(** ** Command availability checking *)

Module Probe.

(** [subprocess.call(args)]: the exit code of the child, or the exception
    raised when it cannot be launched. *)
Definition subprocess_call := list string -> result Z.

Definition is_mkvmerge_available (call : subprocess_call) : result bool :=
  let ret_val : option Z := None in
  match call ["mkvmerge"; "--quiet"] with
  | Raise OSError => Ret false
  | Raise e => Raise e
  | Ret code =>
      let ret_val := Some code in
      match ret_val with
      | Some v => if negb (Z.eqb v 2) then Ret false else Ret true
      | None => Ret true
      end
  end.

Definition is_ffmpeg_available (call : subprocess_call) : result bool :=
  let ret_val : option Z := None in
  match call ["ffmpeg"; "-v"; "quiet"] with
  | Raise OSError => Ret false
  | Raise e => Raise e
  | Ret code =>
      let ret_val := Some code in
      match ret_val with
      | Some v => if negb (Z.eqb v 1) then Ret false else Ret true
      | None => Ret true
      end
  end.

End Probe.

(** ** The outside world *)

Import PyStr.

(** What the splitters need from the timecodes of [scenedetect.frame_timecode]:
    the timecode text ([get_timecode]), the text of the value in seconds
    ([str(t.get_seconds())], a float that this module only prints into an
    argument), the frame number, and the difference of two timecodes. *)
Class FrameTimecode (T : Type) : Type := {
  get_timecode : T -> string;
  str_get_seconds : T -> string;
  get_frames : T -> Z;
  sub : T -> T -> T
}.

Inductive tool : Type := Mkvmerge | Ffmpeg.

(** What a call prints or logs.  [InfoAverageSpeed total_frames elapsed] is
    the line [Average processing speed %.2f frames/sec.]; it keeps the two
    operands of the float division [float(total_frames) / elapsed].  The line
    is only logged for a nonzero [elapsed]: on zero the division raises
    [ZeroDivisionError] before anything is logged. *)
Inductive event : Type :=
| InfoSplitting (t : tool) (plural : bool) (template : string)
| PrintBlank
| InfoAverageSpeed (total_frames : Z) (elapsed : Q)
| ErrorCommandTooLong
| ErrorNotFound (t : tool)
| ErrorReturned (t : tool) (code : Z)
| ErrorMultipleInputs
| InfoFirstSceneShown
| ProgressCreated (total : Z)
| ProgressUpdate (frames : Z).

(** The collaborators of a call.
    - [invoke_command k args]: what [scenedetect.platform.invoke_command]
      does on the [k]-th invocation (counted from 0) when given [args]: the
      exit code of the child, or the exception it raises.
    - [time_time k]: the [k]-th reading of [time.time()], in seconds.
    - [tqdm]: [None] when the progress-bar library is missing; otherwise the
      truth value of a bar created with the given [total].
    - [math_floor_log10 n]: the value of [math.floor(math.log(n, 10))], a
      floating-point computation of the Python runtime. *)
Record environment : Type := {
  invoke_command : nat -> list string -> result Z;
  time_time : nat -> Q;
  tqdm : option (Z -> bool);
  math_floor_log10 : nat -> Z
}.

(** The floor of the decimal logarithm of [n >= 1] in exact arithmetic: one
    less than the number of decimal digits of [n]. *)
Definition exact_floor_log10 (n : nat) : Z :=
  (Z.of_nat (String.length (str_of_nat n)) - 1)%Z.

(** The effects of a call so far: the argument vectors handed to
    [invoke_command], oldest first, the lines printed or logged, oldest first,
    and how many times the clock was read. *)
Record world : Type := {
  invocations : list (list string);
  output : list event;
  clock_reads : nat
}.

Definition initial_world : world :=
  {| invocations := []; output := []; clock_reads := 0 |}.

Definition emit (e : event) (w : world) : world :=
  {| invocations := invocations w;
     output := output w ++ [e];
     clock_reads := clock_reads w |}.

Definition now (env : environment) (w : world) : Q * world :=
  (time_time env (clock_reads w),
   {| invocations := invocations w;
      output := output w;
      clock_reads := S (clock_reads w) |}).

Definition run_command (env : environment) (call_list : list string) (w : world)
  : result Z * world :=
  (invoke_command env (List.length (invocations w)) call_list,
   {| invocations := invocations w ++ [call_list];
      output := output w;
      clock_reads := clock_reads w |}).

(** How a block of statements ends: it runs to its end (or leaves a loop with
    [break]), or an exception escapes from it. *)
Inductive flow : Type :=
| Normal
| Raised (e : exn).

Definition double_quote : string := String (ascii_of_nat 34) EmptyString.

Definition DEFAULT_ARG_OVERRIDE : string :=
  "-c:v libx264 -preset fast -crf 21 -c:a aac".

(** ** Split video functions *)

Section Splitters.

Context {T : Type} `{FrameTimecode T}.
Variable env : environment.

Definition scene : Type := (T * T)%type.

(** The template handed to mkvmerge: the tool numbers its outputs itself, so
    the scene-number placeholder is taken out. *)
Definition strip_scene_number (output_file_template : string) : string :=
  replace (replace output_file_template "-$SCENE_NUMBER" "") "$SCENE_NUMBER" "".

Definition mkvmerge_output_file_name (output_file_template video_name : string)
  : string :=
  safe_substitute (strip_scene_number output_file_template)
                  [("VIDEO_NAME", video_name)].

(** ['%s-%s' % (start_time.get_timecode(), end_time.get_timecode())]. *)
Definition part_of_scene (sc : scene) : string :=
  (get_timecode (fst sc) ++ "-" ++ get_timecode (snd sc))%string.

Definition mkvmerge_call_list (input_video_paths : list string)
    (scene_list : list scene) (output_file_name : string)
    (suppress_output : bool) : list string :=
  let call_list := ["mkvmerge"] in
  let call_list := if suppress_output then call_list ++ ["--quiet"] else call_list in
  call_list ++
    ["-o"; output_file_name;
     "--split";
     ("parts:" ++ join "," (map part_of_scene scene_list))%string;
     join " +" input_video_paths].

Definition split_video_mkvmerge (input_video_paths : list string)
    (scene_list : list scene) (output_file_template video_name : string)
    (suppress_output : bool) (w : world) : result (option Z) * world :=
  match input_video_paths, scene_list with
  | _ :: _, first_scene :: _ =>
      let w := emit (InfoSplitting Mkvmerge
                       (1 <? List.length input_video_paths)%nat
                       output_file_template) w in
      let ret_val := 0%Z in
      let output_file_name :=
        mkvmerge_output_file_name output_file_template video_name in
      (* try: *)
      let call_list :=
        mkvmerge_call_list input_video_paths scene_list output_file_name
                           suppress_output in
      let total_frames :=
        (get_frames (snd (last scene_list first_scene))
         - get_frames (fst first_scene))%Z in
      let (processing_start_time, w) := now env w in
      let finish (ret_val : Z) (w : world) :=
        (Ret (Some ret_val),
         if negb (Z.eqb ret_val 0) then emit (ErrorReturned Mkvmerge ret_val) w
         else w) in
      match run_command env call_list w with
      | (Ret code, w) =>
          let ret_val := code in
          if negb suppress_output then
            let w := emit PrintBlank w in
            let (t, w) := now env w in
            let elapsed := Qminus t processing_start_time in
            if Qeq_bool elapsed 0 then (Raise ZeroDivisionError, w)
            else finish ret_val (emit (InfoAverageSpeed total_frames elapsed) w)
          else finish ret_val w
      | (Raise CommandTooLong, w) => finish ret_val (emit ErrorCommandTooLong w)
      | (Raise OSError, w) => finish ret_val (emit (ErrorNotFound Mkvmerge) w)
      | (Raise e, w) => (Raise e, w)
      end
  | _, _ => (Ret None, w)
  end.

(** [arg_override.replace('\\QUOTE', 'QUOTE').split(' ')], where QUOTE is the
    double-quote character. *)
Definition tokenize_arg_override (arg_override : string) : list string :=
  split (replace arg_override ("\" ++ double_quote)%string double_quote) " ".

(** [scene_num_format]: the width put between ['%0'] and ['d']. *)
Definition scene_num_width (scene_count : nat) : Z :=
  Z.max 3 (math_floor_log10 env scene_count + 1).

(** [scene_num_format % (i + 1)]. *)
Definition scene_number (scene_count i : nat) : string :=
  format_0d (Z.to_nat (scene_num_width scene_count)) (i + 1).

(** The output file of scene [i] (counted from 0). *)
Definition ffmpeg_output_file_name (output_file_template video_name : string)
    (scene_count i : nat) : string :=
  safe_substitute output_file_template
    [("VIDEO_NAME", video_name); ("SCENE_NUMBER", scene_number scene_count i)].

Definition ffmpeg_call_list (input_video_path : string) (arg_override : list string)
    (output_file_template video_name : string) (suppress_output : bool)
    (scene_count i : nat) (sc : scene) : list string :=
  let (start_time, end_time) := sc in
  let duration := sub end_time start_time in
  let call_list := ["ffmpeg"] in
  let call_list :=
    if suppress_output then call_list ++ ["-v"; "quiet"]
    else if (0 <? i)%nat then call_list ++ ["-v"; "error"]
    else call_list in
  let call_list :=
    call_list ++
      ["-y"; "-ss"; str_get_seconds start_time;
       "-i"; input_video_path;
       "-t"; str_get_seconds duration] in
  let call_list := call_list ++ arg_override in
  call_list ++
    ["-sn"; ffmpeg_output_file_name output_file_template video_name scene_count i].

(** The [for] loop over [enumerate(scene_list)], from scene [i] on, with the
    scenes still to do.  It returns how the loop ended, the last value
    assigned to [ret_val], and the world. *)
Fixpoint ffmpeg_loop (input_video_path : string) (arg_override : list string)
    (output_file_template video_name : string) (suppress_output : bool)
    (progress_bar : bool) (scene_count : nat)
    (i : nat) (todo : list scene) (ret_val : Z) (w : world)
  : flow * Z * world :=
  match todo with
  | [] => (Normal, ret_val, w)
  | sc :: rest =>
      let call_list :=
        ffmpeg_call_list input_video_path arg_override output_file_template
                         video_name suppress_output scene_count i sc in
      match run_command env call_list w with
      | (Raise e, w) => (Raised e, ret_val, w)
      | (Ret code, w) =>
          let ret_val := code in
          let w :=
            if negb suppress_output && (i =? 0)%nat && (1 <? scene_count)%nat
            then emit InfoFirstSceneShown w else w in
          if negb (Z.eqb ret_val 0) then
            (* break *)
            (Normal, ret_val, emit (ErrorReturned Ffmpeg ret_val) w)
          else
            let w :=
              if progress_bar
              then emit (ProgressUpdate (get_frames (sub (snd sc) (fst sc)))) w
              else w in
            ffmpeg_loop input_video_path arg_override output_file_template
                        video_name suppress_output progress_bar scene_count
                        (S i) rest ret_val w
      end
  end.

Definition split_video_ffmpeg (input_video_paths : list string)
    (scene_list : list scene) (output_file_template video_name : string)
    (arg_override : string) (hide_progress suppress_output : bool) (w : world)
  : result (option Z) * world :=
  match input_video_paths, scene_list with
  | input_video_path :: _, first_scene :: _ =>
      let w := emit (InfoSplitting Ffmpeg
                       (1 <? List.length input_video_paths)%nat
                       output_file_template) w in
      if (1 <? List.length input_video_paths)%nat then
        (Raise NotImplementedError, emit ErrorMultipleInputs w)
      else
        let ret_val := 0%Z in
        let arg_override := tokenize_arg_override arg_override in
        let scene_count := List.length scene_list in
        (* try: *)
        let total_frames :=
          (get_frames (snd (last scene_list first_scene))
           - get_frames (fst first_scene))%Z in
        let (progress_bar, w) :=
          match tqdm env with
          | Some bar_bool =>
              if negb hide_progress
              then (bar_bool total_frames, emit (ProgressCreated total_frames) w)
              else (false, w)
          | None => (false, w)
          end in
        let (processing_start_time, w) := now env w in
        match ffmpeg_loop input_video_path arg_override output_file_template
                          video_name suppress_output progress_bar scene_count
                          0 scene_list ret_val w with
        | (Normal, ret_val, w) =>
            if progress_bar then
              let w := emit PrintBlank w in
              let (t, w) := now env w in
              let elapsed := Qminus t processing_start_time in
              if Qeq_bool elapsed 0 then (Raise ZeroDivisionError, w)
              else (Ret (Some ret_val),
                    emit (InfoAverageSpeed total_frames elapsed) w)
            else (Ret (Some ret_val), w)
        | (Raised CommandTooLong, ret_val, w) =>
            (Ret (Some ret_val), emit ErrorCommandTooLong w)
        | (Raised OSError, ret_val, w) =>
            (Ret (Some ret_val), emit (ErrorNotFound Ffmpeg) w)
        | (Raised e, _, w) => (Raise e, w)
        end
  | _, _ => (Ret None, w)
  end.

(** The argument vectors of the scenes of [todo], numbered from [i]: what
    the loop hands to the invoker when it gets through all of them. *)
Fixpoint ffmpeg_calls (input_video_path : string) (arg_override : list string)
    (output_file_template video_name : string) (suppress_output : bool)
    (scene_count : nat) (i : nat) (todo : list scene) : list (list string) :=
  match todo with
  | [] => []
  | sc :: rest =>
      ffmpeg_call_list input_video_path arg_override output_file_template
                       video_name suppress_output scene_count i sc
      :: ffmpeg_calls input_video_path arg_override output_file_template
                      video_name suppress_output scene_count (S i) rest
  end.

End Splitters.

(** The average-speed lines of a log, as pairs of frame span and elapsed
    time. *)
Fixpoint speed_reports (evs : list event) : list (Z * Q) :=
  match evs with
  | [] => []
  | InfoAverageSpeed total_frames elapsed :: evs' =>
      (total_frames, elapsed) :: speed_reports evs'
  | _ :: evs' => speed_reports evs'
  end.

(** What the handlers around the loop make of an exception that escaped from
    it (and, for a loop that ended without one, the value returned when the
    speed report goes through). *)
Definition ffmpeg_returns (ended : flow * Z * world) : result (option Z) :=
  match ended with
  | (Normal, ret_val, _) => Ret (Some ret_val)
  | (Raised CommandTooLong, ret_val, _) => Ret (Some ret_val)
  | (Raised OSError, ret_val, _) => Ret (Some ret_val)
  | (Raised e, _, _) => Raise e
  end.

(** The line logged by the handler of an exception of the invoker. *)
Definition handler_message (t : tool) (e : exn) : event :=
  match e with
  | CommandTooLong => ErrorCommandTooLong
  | _ => ErrorNotFound t
  end.

(** The frame counts handed to the progress bar, oldest first. *)
Fixpoint progress_updates (evs : list event) : list Z :=
  match evs with
  | [] => []
  | ProgressUpdate frames :: evs' => frames :: progress_updates evs'
  | _ :: evs' => progress_updates evs'
  end.

(** [if progress_bar:] in the transcode splitter: a bar exists when the
    library is there and progress is not hidden, and it counts as true as the
    library says for its total. *)
Definition ffmpeg_progress_bar (env : environment) (hide_progress : bool)
    (total_frames : Z) : bool :=
  match tqdm env with
  | Some bar_bool => if negb hide_progress then bar_bool total_frames else false
  | None => false
  end.

(** The world in which the loop of the transcode splitter starts: the
    splitting line is logged, the progress bar created when the library is
    there and progress is not hidden, and the clock read once. *)
Definition ffmpeg_loop_start (env : environment) (output_file_template : string)
    (hide_progress : bool) (total_frames : Z) (w : world) : world :=
  let w := emit (InfoSplitting Ffmpeg false output_file_template) w in
  let w :=
    match tqdm env with
    | Some _ => if negb hide_progress then emit (ProgressCreated total_frames) w
                else w
    | None => w
    end in
  snd (now env w).

(** What follows the loop of the transcode splitter: the speed report after a
    loop that ran to its end or was left by [break], with its division by the
    elapsed time, and the two handlers. *)
Definition ffmpeg_loop_end (env : environment) (progress_bar : bool)
    (total_frames : Z) (processing_start_time : Q) (ended : flow * Z * world)
  : result (option Z) * world :=
  match ended with
  | (Normal, ret_val, w) =>
      if progress_bar then
        let w := emit PrintBlank w in
        let (t, w) := now env w in
        let elapsed := Qminus t processing_start_time in
        if Qeq_bool elapsed 0 then (Raise ZeroDivisionError, w)
        else (Ret (Some ret_val), emit (InfoAverageSpeed total_frames elapsed) w)
      else (Ret (Some ret_val), w)
  | (Raised CommandTooLong, ret_val, w) =>
      (Ret (Some ret_val), emit ErrorCommandTooLong w)
  | (Raised OSError, ret_val, w) =>
      (Ret (Some ret_val), emit (ErrorNotFound Ffmpeg) w)
  | (Raised e, _, w) => (Raise e, w)
  end.

(** The verbosity arguments of the invocation for scene [i] (from 0). *)
Definition ffmpeg_verbosity (suppress_output : bool) (i : nat) : list string :=
  if suppress_output then ["-v"; "quiet"]
  else if (0 <? i)%nat then ["-v"; "error"]
  else [].

(** [duration.get_frames()] for a scene. *)
Definition scene_frames {T : Type} `{FrameTimecode T} (sc : T * T) : Z :=
  get_frames (sub (snd sc) (fst sc)).

(** ** Reading strings back *)

Module PyRead.

(** [int(s)] for a string of decimal digits; leading zeros do not count. *)
Definition int_of_digits (s : string) : option nat :=
  option_map Nat.of_uint (NilEmpty.uint_of_string s).

(** [s.count(c)] for a character. *)
Fixpoint count_char (c : ascii) (s : string) : nat :=
  match s with
  | EmptyString => 0
  | String a s' => (if Ascii.eqb a c then 1 else 0) + count_char c s'
  end.

Fixpoint all_id_chars (s : string) : bool :=
  match s with
  | EmptyString => true
  | String c s' => is_id_char c && all_id_chars s'
  end.

(** [s] is an identifier of the template pattern. *)
Definition is_identifier (s : string) : bool :=
  match s with
  | EmptyString => false
  | String c s' => is_id_start c && all_id_chars s'
  end.

(** [s] goes on with a character that would lengthen an identifier standing
    before it. *)
Definition continues_identifier (s : string) : bool :=
  match s with
  | EmptyString => false
  | String c _ => is_id_char c
  end.

End PyRead.

(** ** Templates with scene-number placeholders *)

Module Placeholders.

Local Open Scope string_scope.

(** The two spellings of the scene-number placeholder. *)
Inductive spelling : Type := Bare | Hyphenated.

Definition placeholder (sp : spelling) : string :=
  match sp with
  | Bare => "$SCENE_NUMBER"
  | Hyphenated => "-$SCENE_NUMBER"
  end.

(** A template read as pieces of text, each followed by a placeholder, and a
    last piece: [with_placeholders] is the template, [only_bare] the template
    with the hyphenated placeholders taken out, and [without_placeholders]
    the text alone. *)
Fixpoint with_placeholders (pieces : list (string * spelling)) (last_piece : string)
  : string :=
  match pieces with
  | [] => last_piece
  | (piece, sp) :: pieces' =>
      piece ++ placeholder sp ++ with_placeholders pieces' last_piece
  end.

Fixpoint only_bare (pieces : list (string * spelling)) (last_piece : string)
  : string :=
  match pieces with
  | [] => last_piece
  | (piece, Bare) :: pieces' =>
      piece ++ placeholder Bare ++ only_bare pieces' last_piece
  | (piece, Hyphenated) :: pieces' => piece ++ only_bare pieces' last_piece
  end.

Fixpoint without_placeholders (pieces : list (string * spelling))
    (last_piece : string) : string :=
  match pieces with
  | [] => last_piece
  | (piece, _) :: pieces' => piece ++ without_placeholders pieces' last_piece
  end.

(** No piece in front of a bare placeholder ends with a hyphen (a hyphen
    there would make the placeholder a hyphenated one). *)
Fixpoint well_split (pieces : list (string * spelling)) : bool :=
  match pieces with
  | [] => true
  | (piece, Bare) :: pieces' => negb (ends_with "-" piece) && well_split pieces'
  | (_, Hyphenated) :: pieces' => well_split pieces'
  end.

End Placeholders.

(** ** A timecode for examples *)

Module SampleTimecode.

(** Modelled from the spec: the timecode type of [scenedetect.frame_timecode]
    is not among the sources.  Here a timecode is a frame number of a video
    at one frame per second: its text is [HH:MM:SS.000], its value in seconds
    prints as a float with zero fraction, and a difference never goes below
    frame zero. *)
Record t : Type := at_frame { frame_num : nat }.

Definition timecode_text (x : t) : string :=
  let n := frame_num x in
  (format_0d 2 (n / 3600) ++ ":" ++ format_0d 2 ((n / 60) mod 60) ++ ":"
     ++ format_0d 2 (n mod 60) ++ ".000")%string.

Definition seconds_text (x : t) : string :=
  (str_of_nat (frame_num x) ++ ".0")%string.

#[export] Instance frame_timecode : FrameTimecode t := {
  get_timecode := timecode_text;
  str_get_seconds := seconds_text;
  get_frames := fun x => Z.of_nat (frame_num x);
  sub := fun a b => at_frame (frame_num a - frame_num b)
}.

(** Three scenes of a 30 second video. *)
Definition three_scenes : list (t * t) :=
  [(at_frame 0, at_frame 10); (at_frame 10, at_frame 20); (at_frame 20, at_frame 30)].

(** A backend on which every invocation exits with [code], with a clock that
    advances by one second per reading and an exact logarithm. *)
Definition always (code : Z) (bars : option (Z -> bool)) : environment :=
  {| invoke_command := fun _ _ => Ret code;
     time_time := fun k => inject_Z (Z.of_nat k);
     tqdm := bars;
     math_floor_log10 := exact_floor_log10 |}.

(** A backend that exits with 0 on the invocations before the [k]-th
    (counted from 0) and with [code] from then on. *)
Definition failing_from (k : nat) (code : Z) (bars : option (Z -> bool))
  : environment :=
  {| invoke_command := fun j _ => if (j <? k)%nat then Ret 0%Z else Ret code;
     time_time := fun k => inject_Z (Z.of_nat k);
     tqdm := bars;
     math_floor_log10 := exact_floor_log10 |}.

(** An invoker that raises [e] on every invocation. *)
Definition raising (e : exn) (bars : option (Z -> bool)) : environment :=
  {| invoke_command := fun _ _ => Raise e;
     time_time := fun k => inject_Z (Z.of_nat k);
     tqdm := bars;
     math_floor_log10 := exact_floor_log10 |}.

End SampleTimecode.

(** ** More backends for examples *)

Module SampleBackends.

Import SampleTimecode.

(** An invoker whose child exits with 0 on the invocations before the [k]-th
    (counted from 0) and that raises [e] from then on. *)
Definition raising_from (k : nat) (e : exn) (bars : option (Z -> bool))
  : environment :=
  {| invoke_command := fun j _ => if (j <? k)%nat then Ret 0%Z else Raise e;
     time_time := fun k => inject_Z (Z.of_nat k);
     tqdm := bars;
     math_floor_log10 := exact_floor_log10 |}.

(** A backend that exits with 0 on the invocations before the [k]-th and
    with [code] from then on, on a machine whose clock gives the same reading
    every time. *)
Definition failing_from_frozen (k : nat) (code : Z) (bars : option (Z -> bool))
  : environment :=
  {| invoke_command := fun j _ => if (j <? k)%nat then Ret 0%Z else Ret code;
     time_time := fun _ => inject_Z 5;
     tqdm := bars;
     math_floor_log10 := exact_floor_log10 |}.

(** A progress bar that counts as true when its total is positive. *)
Definition positive_total : option (Z -> bool) := Some (fun total => (0 <? total)%Z).

End SampleBackends.

(** * Properties *)

(** ** String replacement *)

Module PyStrFacts.

Local Open Scope string_scope.

Lemma append_assoc (u v s : string) : (u ++ v) ++ s = u ++ v ++ s.
Proof. induction u as [| c u IH]; cbn; [| rewrite IH]; reflexivity. Qed.

Lemma append_nil_r (u : string) : u ++ EmptyString = u.
Proof. induction u as [| c u IH]; cbn; [| rewrite IH]; reflexivity. Qed.

Lemma length_append (u v : string) :
  String.length (u ++ v) = (String.length u + String.length v)%nat.
Proof. induction u as [| c u IH]; cbn; [| rewrite IH]; reflexivity. Qed.

Lemma prefix_nil (s : string) : prefix EmptyString s = true.
Proof. destruct s; reflexivity. Qed.

Lemma prefix_cons (a c : ascii) (u s : string) :
  prefix (String a u) (String c s) = Ascii.eqb a c && prefix u s.
Proof.
  cbn. destruct (ascii_dec a c) as [-> | Hne].
  - now rewrite Ascii.eqb_refl.
  - apply Ascii.eqb_neq in Hne. now rewrite Hne.
Qed.

Lemma prefix_app_self (u s : string) : prefix u (u ++ s) = true.
Proof.
  induction u as [| a u IH]; [apply prefix_nil |].
  cbn [append]. now rewrite prefix_cons, Ascii.eqb_refl.
Qed.

Lemma prefix_app_r (u v s : string) :
  prefix u v = true -> prefix u (v ++ s) = true.
Proof.
  revert v; induction u as [| a u IH]; intros v Hpre; [apply prefix_nil |].
  destruct v as [| c v]; [discriminate |].
  cbn [append]. rewrite prefix_cons in *.
  apply andb_true_iff in Hpre as [-> Hpre]. now rewrite IH.
Qed.

(** A match that runs into a character it does not contain ends before it. *)
Lemma prefix_stops_before (a : ascii) (u : string) :
  has_char a u = false ->
  forall v s : string, prefix u (v ++ String a s) = true -> prefix u v = true.
Proof.
  induction u as [| x u IH]; intros Hnot v s Hpre; [apply prefix_nil |].
  cbn in Hnot. apply orb_false_iff in Hnot as [Hax Hnot].
  destruct v as [| y v]; cbn [append] in Hpre; rewrite prefix_cons in Hpre;
    apply andb_true_iff in Hpre as [Hxy Hpre].
  - apply Ascii.eqb_eq in Hxy; subst x. now rewrite Ascii.eqb_refl in Hax.
  - rewrite prefix_cons, Hxy. cbn. now apply (IH Hnot v s).
Qed.

Lemma occurs_in_cons (old : string) (c : ascii) (s : string) :
  occurs_in old (String c s) = prefix old (String c s) || occurs_in old s.
Proof. reflexivity. Qed.

Lemma occurs_in_app_l (old pre post : string) :
  occurs_in old pre = true -> occurs_in old (pre ++ post) = true.
Proof.
  induction pre as [| c pre IH]; intros Hocc.
  - cbn in Hocc. rewrite orb_false_r in Hocc.
    destruct old; [| discriminate].
    destruct post; cbn; now rewrite ?prefix_nil.
  - cbn [append]. rewrite occurs_in_cons in *.
    apply orb_true_iff in Hocc as [Hpre | Hocc].
    + change (String c (pre ++ post)) with (String c pre ++ post).
      now rewrite prefix_app_r.
    + rewrite IH by assumption. apply orb_true_r.
Qed.

Lemma occurs_in_app_r (old pre post : string) :
  occurs_in old post = true -> occurs_in old (pre ++ post) = true.
Proof.
  intros Hocc; induction pre as [| c pre IH]; [exact Hocc |].
  cbn [append]. rewrite occurs_in_cons, IH. apply orb_true_r.
Qed.

Lemma occurs_in_app_false (old pre post : string) :
  occurs_in old (pre ++ post) = false ->
  occurs_in old pre = false /\ occurs_in old post = false.
Proof.
  intros Hno; split.
  - destruct (occurs_in old pre) eqn:Hocc; [| reflexivity].
    now rewrite (occurs_in_app_l _ _ post Hocc) in Hno.
  - destruct (occurs_in old post) eqn:Hocc; [| reflexivity].
    now rewrite (occurs_in_app_r _ pre _ Hocc) in Hno.
Qed.

(** A string that contains [String h old] contains [old]. *)
Lemma occurs_in_tail (h : ascii) (old s : string) :
  occurs_in (String h old) s = true -> occurs_in old s = true.
Proof.
  induction s as [| c s IH]; intros Hocc; [discriminate |].
  rewrite occurs_in_cons in Hocc.
  apply orb_true_iff in Hocc as [Hpre | Hocc].
  - rewrite prefix_cons in Hpre. apply andb_true_iff in Hpre as [_ Hpre].
    rewrite occurs_in_cons.
    assert (Hs : occurs_in old s = true).
    { destruct s as [| d s]; [destruct old; [reflexivity | discriminate] |].
      rewrite occurs_in_cons, Hpre. reflexivity. }
    rewrite Hs. apply orb_true_r.
  - rewrite occurs_in_cons, (IH Hocc). apply orb_true_r.
Qed.

(** Over a stretch free of its first character a pattern cannot start. *)
Lemma occurs_in_skip (h : ascii) (x u : string) :
  has_char h u = false ->
  forall post : string,
    occurs_in (String h x) (u ++ post) = occurs_in (String h x) post.
Proof.
  induction u as [| c u IH]; intros Hnot post; [reflexivity |].
  cbn in Hnot. apply orb_false_iff in Hnot as [Hhc Hnot].
  cbn [append]. rewrite occurs_in_cons, prefix_cons, Hhc. cbn.
  now apply IH.
Qed.

(** *** [str.replace] *)

Lemma replace_from_absent (old new : string) (s : string) :
  occurs_in old s = false -> replace_from old new 0 s = s.
Proof.
  induction s as [| c s IH]; intros Hno; [reflexivity |].
  rewrite occurs_in_cons in Hno. apply orb_false_iff in Hno as [Hpre Hno].
  cbn [replace_from]. rewrite Hpre, IH by assumption. reflexivity.
Qed.

Lemma replace_from_skip (old new : string) (u rest : string) :
  replace_from old new (String.length u) (u ++ rest)
  = replace_from old new 0 rest.
Proof.
  induction u as [| c u IH]; [reflexivity |]. cbn. exact IH.
Qed.

(** The leftmost occurrence of a pattern whose first character does not come
    back in it: the text before it stays, the pattern gives way to [new], and
    the scan goes on behind it. *)
Lemma replace_from_first (a : ascii) (old' new pre post : string) :
  has_char a old' = false ->
  occurs_in (String a old') pre = false ->
  replace_from (String a old') new 0 (pre ++ String a old' ++ post)
  = pre ++ new ++ replace_from (String a old') new 0 post.
Proof.
  intros Hhead. induction pre as [| c pre IH]; intros Hno.
  - change (EmptyString ++ String a old' ++ post)
      with (String a (old' ++ post)).
    cbn [replace_from].
    change (String a (old' ++ post)) with (String a old' ++ post).
    rewrite prefix_app_self.
    replace (String.length (String a old') - 1)%nat with (String.length old')
      by (cbn [String.length]; lia).
    now rewrite replace_from_skip.
  - rewrite occurs_in_cons in Hno. apply orb_false_iff in Hno as [Hpre Hno].
    change (String c pre ++ String a old' ++ post)
      with (String c (pre ++ String a old' ++ post)).
    cbn [replace_from].
    assert (Hhere : prefix (String a old') (String c (pre ++ String a old' ++ post))
                    = false).
    { destruct (prefix _ (String c (pre ++ _))) eqn:Hmatch; [| reflexivity].
      rewrite prefix_cons in Hmatch, Hpre.
      apply andb_true_iff in Hmatch as [Hac Hmatch].
      rewrite Hac in Hpre. cbn in Hpre.
      now rewrite (prefix_stops_before a old' Hhead pre (old' ++ post) Hmatch)
        in Hpre. }
    rewrite Hhere, IH by assumption. reflexivity.
Qed.

(** *** The two spellings of a placeholder

    A placeholder [String a old'] and its spelling with a leading [h]: where
    the bare spelling stands once, not after an [h], the prefixed spelling
    does not occur. *)
Lemma prefixed_spelling_absent (h a : ascii) (old' pre post : string) :
  has_char a old' = false ->
  has_char h (String a old') = false ->
  occurs_in (String a old') (pre ++ post) = false ->
  ends_with h pre = false ->
  occurs_in (String h (String a old')) (pre ++ String a old' ++ post) = false.
Proof.
  intros Ha Hh. induction pre as [| c pre IH]; intros Hno Hend.
  - change (EmptyString ++ String a old' ++ post)
      with (String a old' ++ post).
    rewrite (occurs_in_skip h _ _ Hh).
    destruct (occurs_in (String h (String a old')) post) eqn:Hocc; [| reflexivity].
    apply occurs_in_tail in Hocc. cbn [append] in Hno. congruence.
  - change (String c pre ++ post) with (String c (pre ++ post)) in Hno.
    rewrite occurs_in_cons in Hno. apply orb_false_iff in Hno as [_ Hno].
    change (String c pre ++ String a old' ++ post)
      with (String c (pre ++ String a old' ++ post)).
    rewrite occurs_in_cons, prefix_cons.
    destruct pre as [| d pre].
    + cbn [ends_with] in Hend. rewrite Hend. cbn [andb orb].
      apply IH; [exact Hno | reflexivity].
    + rewrite IH; [| exact Hno | exact Hend]. rewrite orb_false_r.
      destruct (Ascii.eqb h c); [| reflexivity]. cbn [andb].
      destruct (prefix _ _) eqn:Hmatch; [| reflexivity].
      change (String d pre ++ String a old' ++ post)
        with (String d (pre ++ String a (old' ++ post))) in Hmatch.
      rewrite prefix_cons in Hmatch.
      apply andb_true_iff in Hmatch as [Had Hmatch].
      apply (prefix_stops_before a old' Ha) in Hmatch.
      apply occurs_in_app_false in Hno as [Hno _].
      rewrite occurs_in_cons, prefix_cons, Had, Hmatch in Hno. discriminate.
Qed.

(** A stretch free of the first character of a pattern is copied. *)
Lemma replace_from_copy (h : ascii) (x new u rest : string) :
  has_char h u = false ->
  replace_from (String h x) new 0 (u ++ rest)
  = u ++ replace_from (String h x) new 0 rest.
Proof.
  induction u as [| c u IH]; intros Hnot; [reflexivity |].
  cbn in Hnot. apply orb_false_iff in Hnot as [Hhc Hnot].
  change (String c u ++ rest) with (String c (u ++ rest)).
  cbn [replace_from]. rewrite prefix_cons, Hhc. cbn [andb].
  now rewrite IH.
Qed.

(** The scan for the prefixed spelling goes over a bare placeholder that
    does not stand after an [h], and over the text before it. *)
Lemma replace_from_over_bare (h a : ascii) (old' new pre rest : string) :
  has_char a old' = false ->
  has_char h (String a old') = false ->
  occurs_in (String a old') pre = false ->
  ends_with h pre = false ->
  replace_from (String h (String a old')) new 0 (pre ++ String a old' ++ rest)
  = pre ++ String a old'
    ++ replace_from (String h (String a old')) new 0 rest.
Proof.
  intros Ha Hh. induction pre as [| c pre IH]; intros Hno Hend.
  - change (EmptyString ++ String a old' ++ rest) with (String a old' ++ rest).
    now rewrite replace_from_copy.
  - rewrite occurs_in_cons in Hno. apply orb_false_iff in Hno as [_ Hno].
    change (String c pre ++ String a old' ++ rest)
      with (String c (pre ++ String a old' ++ rest)).
    cbn [replace_from]. rewrite prefix_cons.
    destruct pre as [| d pre].
    + cbn [ends_with] in Hend. rewrite Hend. cbn [andb].
      rewrite IH; [reflexivity | exact Hno | reflexivity].
    + assert (Hhere : Ascii.eqb h c
                      && prefix (String a old')
                           (String d pre ++ String a old' ++ rest) = false).
      { destruct (Ascii.eqb h c); [| reflexivity]. cbn [andb].
        destruct (prefix _ _) eqn:Hmatch; [| reflexivity].
        change (String d pre ++ String a old' ++ rest)
          with (String d (pre ++ String a (old' ++ rest))) in Hmatch.
        rewrite prefix_cons in Hmatch.
        apply andb_true_iff in Hmatch as [Had Hmatch].
        apply (prefix_stops_before a old' Ha) in Hmatch.
        rewrite occurs_in_cons, prefix_cons, Had, Hmatch in Hno.
        discriminate. }
      rewrite Hhere, IH; [reflexivity | exact Hno | exact Hend].
Qed.

End PyStrFacts.

(** ** Output names *)

Module NamerFacts.

Import PyStrFacts.
Local Open Scope string_scope.

(** A template without the placeholder goes through the stripping as it
    is. *)
Lemma strip_scene_number_absent (template : string) :
  occurs_in "$SCENE_NUMBER" template = false ->
  strip_scene_number template = template.
Proof.
  intros Hno. unfold strip_scene_number, replace.
  rewrite (replace_from_absent "-$SCENE_NUMBER").
  - now apply replace_from_absent.
  - destruct (occurs_in "-$SCENE_NUMBER" template) eqn:Hocc; [| reflexivity].
    apply occurs_in_tail in Hocc. congruence.
Qed.

(** The hyphen-prefixed spelling goes, hyphen included. *)
Lemma strip_scene_number_hyphenated (pre post : string) :
  occurs_in "$SCENE_NUMBER" (pre ++ post) = false ->
  strip_scene_number (pre ++ "-$SCENE_NUMBER" ++ post) = pre ++ post.
Proof.
  intros Hno. unfold strip_scene_number, replace.
  destruct (occurs_in_app_false _ _ _ Hno) as [Hpre Hpost].
  rewrite replace_from_first.
  - rewrite (replace_from_absent "-$SCENE_NUMBER" _ post).
    + cbn [append]. now apply replace_from_absent.
    + destruct (occurs_in "-$SCENE_NUMBER" post) eqn:Hocc; [| reflexivity].
      apply occurs_in_tail in Hocc. congruence.
  - reflexivity.
  - destruct (occurs_in "-$SCENE_NUMBER" pre) eqn:Hocc; [| reflexivity].
    apply occurs_in_tail in Hocc. congruence.
Qed.

(** The bare spelling goes, and what is around it stays. *)
Lemma strip_scene_number_bare (pre post : string) :
  occurs_in "$SCENE_NUMBER" (pre ++ post) = false ->
  ends_with "-" pre = false ->
  strip_scene_number (pre ++ "$SCENE_NUMBER" ++ post) = pre ++ post.
Proof.
  intros Hno Hend. unfold strip_scene_number, replace.
  destruct (occurs_in_app_false _ _ _ Hno) as [Hpre Hpost].
  rewrite (replace_from_absent "-$SCENE_NUMBER").
  - rewrite replace_from_first; [| reflexivity | exact Hpre].
    cbn [append]. now rewrite replace_from_absent.
  - now apply prefixed_spelling_absent.
Qed.

(** *** Any number of placeholders *)

Import Placeholders.

(** The first pass takes out the hyphenated placeholders. *)
Lemma hyphenated_pass (pieces : list (string * spelling)) (last_piece : string) :
  occurs_in "$SCENE_NUMBER" (without_placeholders pieces last_piece) = false ->
  well_split pieces = true ->
  replace_from "-$SCENE_NUMBER" "" 0 (with_placeholders pieces last_piece)
  = only_bare pieces last_piece.
Proof.
  induction pieces as [| [piece sp] pieces IH]; intros Hno Hsplit.
  - cbn in *. apply replace_from_absent.
    destruct (occurs_in "-$SCENE_NUMBER" last_piece) eqn:Hocc; [| reflexivity].
    apply occurs_in_tail in Hocc. congruence.
  - cbn [without_placeholders] in Hno.
    destruct (occurs_in_app_false _ _ _ Hno) as [Hpiece Hrest].
    destruct sp; cbn [with_placeholders only_bare placeholder well_split] in *.
    + apply andb_true_iff in Hsplit as [Hend Hsplit].
      apply negb_true_iff in Hend.
      rewrite replace_from_over_bare; [| reflexivity | reflexivity | exact Hpiece | exact Hend].
      now rewrite IH.
    + rewrite replace_from_first; [| reflexivity |].
      * cbn [append]. now rewrite IH.
      * destruct (occurs_in "-$SCENE_NUMBER" piece) eqn:Hocc; [| reflexivity].
        apply occurs_in_tail in Hocc. congruence.
Qed.

(** The second pass takes out the bare ones. *)
Lemma bare_pass (pieces : list (string * spelling)) (last_piece : string) :
  forall before : string,
    occurs_in "$SCENE_NUMBER" (before ++ without_placeholders pieces last_piece)
    = false ->
    replace_from "$SCENE_NUMBER" "" 0 (before ++ only_bare pieces last_piece)
    = before ++ without_placeholders pieces last_piece.
Proof.
  induction pieces as [| [piece sp] pieces IH]; intros before Hno.
  - cbn in *. now apply replace_from_absent.
  - cbn [without_placeholders] in *. rewrite <- append_assoc in Hno.
    destruct sp; cbn [only_bare placeholder].
    + destruct (occurs_in_app_false _ _ _ Hno) as [Hbefore Hrest].
      rewrite <- (append_assoc before piece).
      rewrite replace_from_first; [| reflexivity | exact Hbefore].
      cbn [append].
      specialize (IH EmptyString Hrest). cbn [append] in IH.
      now rewrite IH, append_assoc.
    + rewrite <- (append_assoc before piece), IH by exact Hno.
      now rewrite append_assoc.
Qed.

(** A template made of text that does not hold the placeholder, with any
    number of placeholders in either spelling in it, is stripped to the
    text. *)
Lemma strip_scene_number_pieces (pieces : list (string * spelling))
    (last_piece : string) :
  occurs_in "$SCENE_NUMBER" (without_placeholders pieces last_piece) = false ->
  well_split pieces = true ->
  strip_scene_number (with_placeholders pieces last_piece)
  = without_placeholders pieces last_piece.
Proof.
  intros Hno Hsplit. unfold strip_scene_number, replace.
  rewrite hyphenated_pass by assumption.
  exact (bare_pass pieces last_piece EmptyString Hno).
Qed.

(** The stripping is one pass per spelling: text that becomes a placeholder
    only when an occurrence inside it is removed stays in the template. *)
Example strip_scene_number_single_pass :
  strip_scene_number "$SCENE$SCENE_NUMBER_NUMBER" = "$SCENE_NUMBER".
Proof. reflexivity. Qed.

(** C7 as stated fails on a template in which a removal brings a new
    placeholder together: the bare placeholder inside
    ["$SCENE$SCENE_NUMBER_NUMBER"] is removed, what is left is the placeholder
    again, and it goes into the output name as it is. *)
Lemma strip_scene_number_leaves_placeholder :
  strip_scene_number "$SCENE$SCENE_NUMBER_NUMBER" = "$SCENE_NUMBER" /\
  (occurs_in "$SCENE_NUMBER" (strip_scene_number "$SCENE$SCENE_NUMBER_NUMBER")
   = true) /\
  mkvmerge_output_file_name "$SCENE$SCENE_NUMBER_NUMBER" "clip" = "$SCENE_NUMBER".
Proof. repeat split. Qed.

(** C7, as amended: the stripping of the remux splitter takes out the
    hyphen-prefixed and the bare spelling of the scene-number placeholder
    before the substitution, in one pass for each spelling.  Both
    ["$VIDEO_NAME-$SCENE_NUMBER"] and
    ["$VIDEO_NAME$SCENE_NUMBER"] become ["$VIDEO_NAME"], and so name the
    output after the video alone; in a template made of text that does not
    hold the placeholder, every placeholder, in either spelling, is removed
    and the text kept; a template without the placeholder is unchanged. *)
Theorem strip_scene_number_both_spellings :
  (strip_scene_number "$VIDEO_NAME-$SCENE_NUMBER" = "$VIDEO_NAME" /\
   strip_scene_number "$VIDEO_NAME$SCENE_NUMBER" = "$VIDEO_NAME") /\
  (forall video_name : string,
      mkvmerge_output_file_name "$VIDEO_NAME-$SCENE_NUMBER" video_name
      = video_name /\
      mkvmerge_output_file_name "$VIDEO_NAME$SCENE_NUMBER" video_name
      = video_name) /\
  (forall (pieces : list (string * spelling)) (last_piece : string),
      occurs_in "$SCENE_NUMBER" (without_placeholders pieces last_piece) = false ->
      well_split pieces = true ->
      strip_scene_number (with_placeholders pieces last_piece)
      = without_placeholders pieces last_piece) /\
  (forall template : string,
      occurs_in "$SCENE_NUMBER" template = false ->
      strip_scene_number template = template).
Proof.
  split; [split; reflexivity |].
  split; [intros video_name; split; reflexivity |].
  split; [exact strip_scene_number_pieces | exact strip_scene_number_absent].
Qed.

Lemma strip_scene_number_both_spellings_witness :
  strip_scene_number "$VIDEO_NAME-$SCENE_NUMBER of $SCENE_NUMBER.mkv"
  = "$VIDEO_NAME of .mkv" /\
  strip_scene_number "$VIDEO_NAME.mkv" = "$VIDEO_NAME.mkv".
Proof.
  destruct strip_scene_number_both_spellings as (_ & _ & Hpieces & Habsent).
  split.
  - apply (Hpieces [("$VIDEO_NAME", Hyphenated); (" of ", Bare)] ".mkv");
      reflexivity.
  - apply Habsent. reflexivity.
Defined.

(** C5, at 1000 scenes: when the runtime evaluates
    [math.floor(math.log(1000, 10))] to 2, as CPython does
    ([math.log(1000, 10)] is [2.9999999999999996]), the width is 3, scene 999
    is named with three digits and scene 1000 with four: the names of one
    split differ in length, and [clip-1000] sorts before [clip-999]. *)
Theorem scene_number_width_at_1000 (env : environment) :
  math_floor_log10 env 1000 = 2%Z ->
  scene_num_width env 1000 = 3%Z /\
  ffmpeg_output_file_name env "$VIDEO_NAME-$SCENE_NUMBER" "clip" 1000 998
  = "clip-999" /\
  ffmpeg_output_file_name env "$VIDEO_NAME-$SCENE_NUMBER" "clip" 1000 999
  = "clip-1000".
Proof.
  intros Hfloor.
  unfold ffmpeg_output_file_name, scene_number, scene_num_width.
  rewrite Hfloor. repeat split; vm_compute; reflexivity.
Qed.

Lemma scene_number_width_at_1000_witness :
  let env := {| invoke_command := fun _ _ => Ret 0%Z;
                time_time := fun k => inject_Z (Z.of_nat k);
                tqdm := None;
                math_floor_log10 := fun _ => 2%Z |} in
  ffmpeg_output_file_name env "$VIDEO_NAME-$SCENE_NUMBER" "clip" 1000 999
  = "clip-1000".
Proof.
  intros env. apply (scene_number_width_at_1000 env). reflexivity.
Defined.

(** *** Where the logarithm is exact *)

Lemma length_string_of_uint (d : Decimal.uint) :
  String.length (NilEmpty.string_of_uint d) = Decimal.nb_digits d.
Proof. induction d; cbn; congruence. Qed.

Lemma nb_digits_succ (d : Decimal.uint) :
  (Decimal.nb_digits d <= Decimal.nb_digits (Decimal.Little.succ d))%nat.
Proof. induction d; cbn; lia. Qed.

Lemma nb_digits_to_little_uint (n : nat) :
  forall acc : Decimal.uint,
    (Decimal.nb_digits acc <= Decimal.nb_digits (Nat.to_little_uint n acc))%nat.
Proof.
  induction n as [| n IH]; intros acc; cbn; [lia |].
  pose proof (nb_digits_succ acc). pose proof (IH (Decimal.Little.succ acc)). lia.
Qed.

Lemma to_little_uint_add (m k : nat) :
  forall acc : Decimal.uint,
    Nat.to_little_uint (m + k) acc
    = Nat.to_little_uint k (Nat.to_little_uint m acc).
Proof.
  induction m as [| m IH]; intros acc; cbn; [reflexivity | apply IH].
Qed.

(** A smaller number has no more digits. *)
Lemma str_of_nat_length_mono (m n : nat) :
  (m <= n)%nat ->
  (String.length (str_of_nat m) <= String.length (str_of_nat n))%nat.
Proof.
  intros Hle. unfold str_of_nat, Nat.to_uint.
  rewrite !length_string_of_uint, !DecimalFacts.nb_digits_rev.
  replace n with (m + (n - m))%nat by lia.
  rewrite to_little_uint_add. apply nb_digits_to_little_uint.
Qed.

Lemma length_zeros (k : nat) : String.length (zeros k) = k.
Proof. induction k as [| k IH]; cbn; [| rewrite IH]; reflexivity. Qed.

Lemma length_format_0d (width n : nat) :
  String.length (format_0d width n)
  = Nat.max width (String.length (str_of_nat n)).
Proof.
  unfold format_0d. rewrite length_append, length_zeros. lia.
Qed.

(** X10: With the exact floor of the logarithm, the scene numbers of a split all
    have the width of the format: at least 3, and the number of digits of the
    scene count. *)
Lemma scene_number_length_exact (env : environment) (scene_count i : nat) :
  (i < scene_count)%nat ->
  math_floor_log10 env scene_count = exact_floor_log10 scene_count ->
  String.length (scene_number env scene_count i)
  = Nat.max 3 (String.length (str_of_nat scene_count)).
Proof.
  intros Hi Hexact.
  unfold scene_number, scene_num_width. rewrite Hexact. unfold exact_floor_log10.
  rewrite length_format_0d.
  pose proof (str_of_nat_length_mono (i + 1) scene_count ltac:(lia)).
  lia.
Qed.

(** The example of the spec: with 1200 scenes, where the floor of the decimal
    logarithm is 3, scene 5 is numbered with four digits. *)
Lemma scene_number_example_1200 (env : environment) :
  math_floor_log10 env 1200 = 3%Z ->
  ffmpeg_output_file_name env "$VIDEO_NAME-$SCENE_NUMBER" "clip" 1200 4
  = "clip-0005".
Proof.
  intros Hfloor.
  unfold ffmpeg_output_file_name, scene_number, scene_num_width.
  rewrite Hfloor. vm_compute. reflexivity.
Qed.

End NamerFacts.

(** ** Availability probes *)

Module ProbeFacts.

Import Probe.

(** C1, as amended: when mkvmerge cannot be launched the probe returns
    [false] without raising; when the invocation returns an exit code the
    probe returns, without raising, [true] exactly when that code is 2. *)
Theorem is_mkvmerge_available_iff_exit_2 (call : subprocess_call) :
  (call ["mkvmerge"; "--quiet"] = Raise OSError ->
   is_mkvmerge_available call = Ret false) /\
  (forall code : Z,
      call ["mkvmerge"; "--quiet"] = Ret code ->
      is_mkvmerge_available call = Ret (Z.eqb code 2) /\
      (is_mkvmerge_available call = Ret true <-> code = 2%Z)).
Proof.
  unfold is_mkvmerge_available; split.
  - intros ->; reflexivity.
  - intros code ->; cbn.
    destruct (Z.eqb_spec code 2) as [-> | Hne]; cbn.
    + split; [reflexivity | split; trivial].
    + split; [reflexivity | split; [discriminate | contradiction]].
Qed.

Lemma is_mkvmerge_available_iff_exit_2_witness :
  is_mkvmerge_available (fun _ => Ret 2%Z) = Ret true.
Proof.
  apply (proj2 (is_mkvmerge_available_iff_exit_2 (fun _ => Ret 2%Z)) 2%Z eq_refl).
  reflexivity.
Defined.

(** C1 as stated fails: the invocation succeeds with exit code 0, which is
    not the sentinel 2, and the probe answers [false]; with the sentinel 2 it
    answers [true]. *)
Lemma is_mkvmerge_available_exit_0_false :
  let ran_with (code : Z) : subprocess_call := fun _ => Ret code in
  ran_with 0%Z ["mkvmerge"; "--quiet"] = Ret 0%Z /\
  0%Z <> 2%Z /\
  is_mkvmerge_available (ran_with 0%Z) = Ret false /\
  is_mkvmerge_available (ran_with 2%Z) = Ret true.
Proof.
  cbn; repeat split; discriminate.
Qed.

(** C2, as amended: when ffmpeg cannot be launched the probe returns
    [false] without raising; when the invocation returns an exit code the
    probe returns, without raising, [true] exactly when that code is 1. *)
Theorem is_ffmpeg_available_iff_exit_1 (call : subprocess_call) :
  (call ["ffmpeg"; "-v"; "quiet"] = Raise OSError ->
   is_ffmpeg_available call = Ret false) /\
  (forall code : Z,
      call ["ffmpeg"; "-v"; "quiet"] = Ret code ->
      is_ffmpeg_available call = Ret (Z.eqb code 1) /\
      (is_ffmpeg_available call = Ret true <-> code = 1%Z)).
Proof.
  unfold is_ffmpeg_available; split.
  - intros ->; reflexivity.
  - intros code ->; cbn.
    destruct (Z.eqb_spec code 1) as [-> | Hne]; cbn.
    + split; [reflexivity | split; trivial].
    + split; [reflexivity | split; [discriminate | contradiction]].
Qed.

Lemma is_ffmpeg_available_iff_exit_1_witness :
  is_ffmpeg_available (fun _ => Raise OSError) = Ret false.
Proof.
  apply (proj1 (is_ffmpeg_available_iff_exit_1 (fun _ => Raise OSError))).
  reflexivity.
Defined.

(** C2 as stated fails: the invocation succeeds with exit code 0, which is
    not the sentinel 1, and the probe answers [false]; with the sentinel 1 it
    answers [true]. *)
Lemma is_ffmpeg_available_exit_0_false :
  let ran_with (code : Z) : subprocess_call := fun _ => Ret code in
  ran_with 0%Z ["ffmpeg"; "-v"; "quiet"] = Ret 0%Z /\
  0%Z <> 1%Z /\
  is_ffmpeg_available (ran_with 0%Z) = Ret false /\
  is_ffmpeg_available (ran_with 1%Z) = Ret true.
Proof.
  cbn; repeat split; discriminate.
Qed.

End ProbeFacts.

(** ** Splitters *)

Module SplitterFacts.

Section Facts.

Context {T : Type} `{FrameTimecode T}.
Variable env : environment.

(** The result of the remux splitter on non-empty lists is never the
    no-op sentinel. *)
Lemma split_video_mkvmerge_nonempty_not_None
    (p : string) (ps : list string) (sc : scene) (scs : list scene)
    (template video_name : string) (suppress_output : bool) (w : world) :
  fst (split_video_mkvmerge env (p :: ps) (sc :: scs) template video_name
         suppress_output w) <> Ret None.
Proof.
  unfold split_video_mkvmerge, run_command, now.
  destruct (invoke_command env _ _) as [code | e].
  - destruct suppress_output; cbn [negb]; [discriminate |].
    destruct (Qeq_bool _ _); discriminate.
  - destruct e; cbn [fst]; discriminate.
Qed.

(** Nor is the result of the transcode splitter. *)
Lemma split_video_ffmpeg_nonempty_not_None
    (p : string) (ps : list string) (sc : scene) (scs : list scene)
    (template video_name arg_override : string)
    (hide_progress suppress_output : bool) (w : world) :
  fst (split_video_ffmpeg env (p :: ps) (sc :: scs) template video_name
         arg_override hide_progress suppress_output w) <> Ret None.
Proof.
  unfold split_video_ffmpeg.
  destruct (1 <? List.length (p :: ps))%nat; [cbn [fst]; discriminate |].
  destruct (match tqdm env with Some _ => _ | None => _ end) as [bar w1].
  unfold now.
  destruct (ffmpeg_loop _ _ _ _ _ _ _ _ _ _ _ _) as [[fl rv] w3].
  destruct fl as [| e]; [| destruct e]; cbn [fst]; try discriminate.
  destruct bar; [| discriminate].
  destruct (Qeq_bool _ _); discriminate.
Qed.

(** C6: each splitter returns the no-op sentinel [None] exactly when the
    input path list or the scene list is empty, and in that case it has no
    effect at all: no child process is invoked and nothing is logged. *)
Theorem splitters_None_iff_empty
    (input_video_paths : list string) (scene_list : list scene)
    (template video_name arg_override : string)
    (hide_progress suppress_output : bool) (w : world) :
  (fst (split_video_mkvmerge env input_video_paths scene_list template
          video_name suppress_output w) = Ret None
   <-> input_video_paths = [] \/ scene_list = []) /\
  (fst (split_video_ffmpeg env input_video_paths scene_list template
          video_name arg_override hide_progress suppress_output w) = Ret None
   <-> input_video_paths = [] \/ scene_list = []) /\
  (input_video_paths = [] \/ scene_list = [] ->
   snd (split_video_mkvmerge env input_video_paths scene_list template
          video_name suppress_output w) = w /\
   snd (split_video_ffmpeg env input_video_paths scene_list template
          video_name arg_override hide_progress suppress_output w) = w).
Proof.
  destruct input_video_paths as [| p ps]; [| destruct scene_list as [| sc scs]].
  - cbn; repeat split; auto.
  - cbn; repeat split; auto.
  - split; [split | split; [split |]].
    + intros Hnone.
      now apply split_video_mkvmerge_nonempty_not_None in Hnone.
    + intros [Hnil | Hnil]; discriminate Hnil.
    + intros Hnone.
      now apply split_video_ffmpeg_nonempty_not_None in Hnone.
    + intros [Hnil | Hnil]; discriminate Hnil.
    + intros [Hnil | Hnil]; discriminate Hnil.
Qed.

(** C4: with a non-empty scene list and more than one input path the
    transcode splitter raises [NotImplementedError], and the list of
    invocations is what it was before the call: no child process. *)
Theorem split_video_ffmpeg_multiple_inputs
    (input_video_paths : list string) (scene_list : list scene)
    (template video_name arg_override : string)
    (hide_progress suppress_output : bool) (w : world) :
  (1 < List.length input_video_paths)%nat ->
  scene_list <> [] ->
  fst (split_video_ffmpeg env input_video_paths scene_list template
         video_name arg_override hide_progress suppress_output w)
    = Raise NotImplementedError /\
  invocations
    (snd (split_video_ffmpeg env input_video_paths scene_list template
            video_name arg_override hide_progress suppress_output w))
    = invocations w.
Proof.
  intros Hmany Hscenes.
  destruct input_video_paths as [| p ps]; [inversion Hmany |].
  destruct scene_list as [| sc scs]; [contradiction |].
  unfold split_video_ffmpeg.
  apply Nat.ltb_lt in Hmany. rewrite Hmany.
  split; reflexivity.
Qed.

(** *** The remux splitter *)

Lemma speed_reports_app (evs evs' : list event) :
  speed_reports (evs ++ evs') = speed_reports evs ++ speed_reports evs'.
Proof.
  induction evs as [| ev evs IH]; [reflexivity |].
  destruct ev; cbn; rewrite IH; reflexivity.
Qed.

(** On non-empty lists the remux splitter hands one argument vector to the
    invoker, whatever comes back. *)
Lemma split_video_mkvmerge_invocations
    (p : string) (ps : list string) (sc : scene) (scs : list scene)
    (template video_name : string) (suppress_output : bool) (w : world) :
  invocations
    (snd (split_video_mkvmerge env (p :: ps) (sc :: scs) template video_name
            suppress_output w))
  = invocations w ++
    [mkvmerge_call_list (p :: ps) (sc :: scs)
       (mkvmerge_output_file_name template video_name) suppress_output].
Proof.
  unfold split_video_mkvmerge, run_command, now.
  destruct (invoke_command env _ _) as [code | e].
  - destruct suppress_output; cbn [negb];
      [| destruct (Qeq_bool _ _)]; destruct (Z.eqb code 0); reflexivity.
  - destruct e; reflexivity.
Qed.

(** C9, as amended: the remux splitter reports the average speed when both
    lists are non-empty, the invoker returns an exit code, zero or not, output
    is not suppressed and the time elapsed between the clock reading before
    the invocation and the one after it is not zero; the report then carries
    the frame span from the first scene's start to the last scene's end and
    that elapsed time.  With an empty list, with output suppressed, or when
    the invoker raises, nothing is reported. *)
Theorem split_video_mkvmerge_average_speed
    (input_video_paths : list string) (scene_list : list scene)
    (template video_name : string) (suppress_output : bool) (w : world) :
  (forall (first_scene : scene) (later : list scene) (code : Z),
      input_video_paths <> [] ->
      scene_list = first_scene :: later ->
      invoke_command env (List.length (invocations w))
        (mkvmerge_call_list input_video_paths scene_list
           (mkvmerge_output_file_name template video_name) suppress_output)
      = Ret code ->
      suppress_output = false ->
      Qeq_bool (Qminus (time_time env (S (clock_reads w)))
                       (time_time env (clock_reads w))) 0 = false ->
      speed_reports
        (output (snd (split_video_mkvmerge env input_video_paths scene_list
                        template video_name suppress_output w)))
      = speed_reports (output w) ++
        [((get_frames (snd (last scene_list first_scene))
           - get_frames (fst first_scene))%Z,
          Qminus (time_time env (S (clock_reads w)))
                 (time_time env (clock_reads w)))]) /\
  (input_video_paths = [] \/ scene_list = [] \/ suppress_output = true \/
   (exists e : exn,
       invoke_command env (List.length (invocations w))
         (mkvmerge_call_list input_video_paths scene_list
            (mkvmerge_output_file_name template video_name) suppress_output)
       = Raise e) ->
   speed_reports
     (output (snd (split_video_mkvmerge env input_video_paths scene_list
                     template video_name suppress_output w)))
   = speed_reports (output w)).
Proof.
  split.
  - intros first_scene later code Hpaths -> Hcode -> Helapsed.
    destruct input_video_paths as [| p ps]; [contradiction |].
    unfold split_video_mkvmerge, run_command, now.
    cbn [invocations emit fst snd]. rewrite Hcode.
    cbn [negb clock_reads emit]. rewrite Helapsed.
    destruct (Z.eqb code 0); cbn [negb snd emit output].
    all: rewrite <- ?app_assoc, !speed_reports_app; cbn; now rewrite ?app_nil_r.
  - intros Hquiet.
    destruct input_video_paths as [| p ps]; [reflexivity |].
    destruct scene_list as [| sc scs]; [reflexivity |].
    destruct Hquiet as [Hnil | [Hnil | [-> | [e Hraise]]]]; try discriminate.
    + unfold split_video_mkvmerge, run_command, now.
      destruct (invoke_command env _ _) as [code | e].
      * destruct (Z.eqb code 0); cbn [negb snd emit output];
          rewrite ?speed_reports_app; cbn; now rewrite ?app_nil_r.
      * destruct e; cbn [Z.eqb negb snd emit output];
          rewrite ?speed_reports_app; cbn; now rewrite ?app_nil_r.
    + unfold split_video_mkvmerge, run_command, now.
      cbn [invocations emit fst snd]. rewrite Hraise.
      destruct e; cbn [Z.eqb negb snd emit output];
          rewrite ?speed_reports_app; cbn; now rewrite ?app_nil_r.
Qed.

(** *** The per-scene loop *)

Section Loop.

Variables (input_video_path : string) (arg_override : list string)
          (output_file_template video_name : string)
          (suppress_output progress_bar : bool) (scene_count : nat).

Let call (i : nat) (sc : scene) : list string :=
  ffmpeg_call_list env input_video_path arg_override output_file_template
                   video_name suppress_output scene_count i sc.

Let loop (i : nat) (todo : list scene) (ret_val : Z) (w : world) :=
  ffmpeg_loop env input_video_path arg_override output_file_template video_name
              suppress_output progress_bar scene_count i todo ret_val w.

Let calls (i : nat) (todo : list scene) : list (list string) :=
  ffmpeg_calls env input_video_path arg_override output_file_template video_name
               suppress_output scene_count i todo.

Lemma invocations_if_emit (b : bool) (e : event) (w : world) :
  invocations (if b then emit e w else w) = invocations w.
Proof. destruct b; reflexivity. Qed.

(** While the backend exits with 0 the loop goes on: after the scenes of
    [done] it stands at the next scene, with one invocation made per scene
    of [done], in order. *)
Lemma ffmpeg_loop_successes (done : list scene) :
  forall (i : nat) (rest : list scene) (ret_val : Z) (w : world),
    (forall j sc, nth_error done j = Some sc ->
                  invoke_command env (List.length (invocations w) + j)
                                 (call (i + j) sc) = Ret 0%Z) ->
    exists w' : world,
      loop i (done ++ rest) ret_val w
      = loop (i + List.length done) rest
             (match done with [] => ret_val | _ :: _ => 0%Z end) w'
      /\ invocations w' = invocations w ++ calls i done.
Proof.
  induction done as [| sc done' IH]; intros i rest ret_val w Hzero.
  - exists w. cbn [List.length app]. rewrite Nat.add_0_r.
    split; [reflexivity |]. cbn. now rewrite app_nil_r.
  - pose proof (Hzero 0%nat sc eq_refl) as Hfirst.
    rewrite !Nat.add_0_r in Hfirst.
    unfold loop; cbn [app ffmpeg_loop]; unfold run_command.
    fold (call i sc). rewrite Hfirst. cbn [Z.eqb negb].
    match goal with
    | |- context [ffmpeg_loop _ _ _ _ _ _ _ _ (S i) (done' ++ rest) 0%Z ?w1] =>
        destruct (IH (S i) rest 0%Z w1) as [w' [Hloop Hinv]]
    end.
    + intros j sc' Hj.
      rewrite !invocations_if_emit. cbn [invocations].
      rewrite length_app. cbn [List.length].
      replace (List.length (invocations w) + 1 + j)%nat
        with (List.length (invocations w) + S j)%nat by lia.
      replace (S i + j)%nat with (i + S j)%nat by lia.
      now apply Hzero.
    + exists w'. split.
      * unfold loop in Hloop. rewrite Hloop.
        cbn [List.length]. replace (i + S (List.length done'))%nat
          with (S i + List.length done')%nat by lia.
        now destruct done'.
      * rewrite Hinv, !invocations_if_emit. cbn [invocations].
        rewrite <- app_assoc. reflexivity.
Qed.

(** A nonzero exit code leaves the loop at once, with that code. *)
Lemma ffmpeg_loop_break (i : nat) (sc : scene) (after : list scene)
    (ret_val code : Z) (w : world) :
  invoke_command env (List.length (invocations w)) (call i sc) = Ret code ->
  code <> 0%Z ->
  exists w' : world,
    loop i (sc :: after) ret_val w = (Normal, code, w')
    /\ invocations w' = invocations w ++ [call i sc].
Proof.
  intros Hcode Hnz.
  unfold loop; cbn [ffmpeg_loop]; unfold run_command.
  fold (call i sc). rewrite Hcode.
  apply Z.eqb_neq in Hnz. rewrite Hnz. cbn [negb].
  eexists; split; [reflexivity |].
  cbn [emit invocations]. now rewrite invocations_if_emit.
Qed.

(** An exception of the invoker escapes from the loop and leaves [ret_val]
    as it was. *)
Lemma ffmpeg_loop_raise (i : nat) (sc : scene) (after : list scene)
    (ret_val : Z) (e : exn) (w : world) :
  invoke_command env (List.length (invocations w)) (call i sc) = Raise e ->
  exists w' : world,
    loop i (sc :: after) ret_val w = (Raised e, ret_val, w')
    /\ invocations w' = invocations w ++ [call i sc]
    /\ output w' = output w.
Proof.
  intros Hraise.
  unfold loop; cbn [ffmpeg_loop]; unfold run_command.
  fold (call i sc). rewrite Hraise.
  eexists; repeat split.
Qed.

Lemma ffmpeg_calls_length (todo : list scene) :
  forall i : nat, List.length (calls i todo) = List.length todo.
Proof.
  induction todo as [| sc rest IH]; intros i; cbn; [| rewrite IH]; reflexivity.
Qed.

Lemma ffmpeg_calls_app (done rest : list scene) :
  forall i : nat,
    calls i (done ++ rest) = calls i done ++ calls (i + List.length done) rest.
Proof.
  induction done as [| sc done' IH]; intros i; cbn.
  - now rewrite Nat.add_0_r.
  - unfold calls in IH. rewrite IH.
    now replace (i + S (List.length done'))%nat
      with (S i + List.length done')%nat by lia.
Qed.

End Loop.

(** *** The transcode splitter around its loop *)

(** With one input path and at least one scene the splitter runs the loop
    from scene 0 with [ret_val = 0], in a world that has seen no further
    invocation; the invocations are those of the loop, and when an exception
    escapes from the loop the result is what the handlers make of it, with an
    exception of the invoker logged after whatever the loop logged. *)
Lemma split_video_ffmpeg_single_input
    (input_video_path : string) (first_scene : scene) (later : list scene)
    (template video_name arg_override : string)
    (hide_progress suppress_output : bool) (w : world) :
  exists (progress_bar : bool) (w0 : world),
    invocations w0 = invocations w /\
    let scene_list := first_scene :: later in
    let ended :=
      ffmpeg_loop env input_video_path (tokenize_arg_override arg_override)
                  template video_name suppress_output progress_bar
                  (List.length scene_list) 0 scene_list 0%Z w0 in
    let run :=
      split_video_ffmpeg env [input_video_path] scene_list template video_name
                         arg_override hide_progress suppress_output w in
    (fst (fst ended) <> Normal -> fst run = ffmpeg_returns ended) /\
    invocations (snd run) = invocations (snd ended) /\
    (fst (fst ended) = Raised CommandTooLong ->
     output (snd run) = output (snd ended) ++ [ErrorCommandTooLong]) /\
    (fst (fst ended) = Raised OSError ->
     output (snd run) = output (snd ended) ++ [ErrorNotFound Ffmpeg]).
Proof.
  unfold split_video_ffmpeg.
  change (1 <? List.length [input_video_path])%nat with false. cbv iota.
  destruct (match tqdm env with Some _ => _ | None => _ end)
    as [progress_bar w1] eqn:Hbar.
  assert (Hinv1 : invocations w1 = invocations w).
  { destruct (tqdm env); [destruct hide_progress |]; cbn in Hbar;
      inversion Hbar; reflexivity. }
  exists progress_bar, (snd (now env w1)). split; [exact Hinv1 |].
  unfold now. cbv zeta. cbn [snd].
  destruct (ffmpeg_loop _ _ _ _ _ _ _ _ _ _ _ _) as [[fl rv] w2].
  destruct fl as [| e]; [| destruct e]; cbn [fst snd ffmpeg_returns].
  - destruct progress_bar; [destruct (Qeq_bool _ _) |];
      repeat split; intros; easy.
  - repeat split; intros; easy.
  - repeat split; intros; easy.
  - repeat split; intros; easy.
  - repeat split; intros; easy.
Qed.

(** C10: on non-empty lists, when the invoker raises [CommandTooLong] or
    [OSError] on the first invocation, each splitter (the transcode splitter
    with its one input path) catches the exception, logs the handler's message
    last, and returns 0, the exit code of a successful split. *)
Theorem splitters_return_0_when_invoker_raises
    (e : exn) (input_video_path : string) (more_paths : list string)
    (first_scene : scene) (later : list scene)
    (template video_name arg_override : string)
    (hide_progress suppress_output : bool) (w : world) :
  e = CommandTooLong \/ e = OSError ->
  (invoke_command env (List.length (invocations w))
     (mkvmerge_call_list (input_video_path :: more_paths) (first_scene :: later)
        (mkvmerge_output_file_name template video_name) suppress_output)
   = Raise e ->
   fst (split_video_mkvmerge env (input_video_path :: more_paths)
          (first_scene :: later) template video_name suppress_output w)
     = Ret (Some 0%Z) /\
   exists earlier : list event,
     output (snd (split_video_mkvmerge env (input_video_path :: more_paths)
                    (first_scene :: later) template video_name
                    suppress_output w))
     = earlier ++ [handler_message Mkvmerge e]) /\
  (invoke_command env (List.length (invocations w))
     (ffmpeg_call_list env input_video_path
        (tokenize_arg_override arg_override) template video_name
        suppress_output (List.length (first_scene :: later)) 0 first_scene)
   = Raise e ->
   fst (split_video_ffmpeg env [input_video_path] (first_scene :: later)
          template video_name arg_override hide_progress suppress_output w)
     = Ret (Some 0%Z) /\
   exists earlier : list event,
     output (snd (split_video_ffmpeg env [input_video_path]
                    (first_scene :: later) template video_name arg_override
                    hide_progress suppress_output w))
     = earlier ++ [handler_message Ffmpeg e]).
Proof.
  intros Hexn; split; intros Hraise.
  - unfold split_video_mkvmerge, run_command, now.
    cbn [invocations emit fst snd]. rewrite Hraise.
    destruct Hexn as [-> | ->]; cbn [Z.eqb negb fst snd];
      (split; [reflexivity | eexists; reflexivity]).
  - destruct (split_video_ffmpeg_single_input input_video_path first_scene later
                template video_name arg_override hide_progress suppress_output w)
      as (bar & w0 & Hinv0 & Hret & _ & Hlong & Hmissing).
    cbv zeta in Hret, Hlong, Hmissing.
    destruct (ffmpeg_loop_raise input_video_path
                (tokenize_arg_override arg_override) template video_name
                suppress_output bar (List.length (first_scene :: later))
                0 first_scene later 0%Z e w0) as (w1 & Hloop & _).
    { rewrite Hinv0. exact Hraise. }
    rewrite Hloop in Hret, Hlong, Hmissing.
    cbn [ffmpeg_returns fst snd] in Hret, Hlong, Hmissing.
    specialize (Hret ltac:(discriminate)).
    destruct Hexn as [-> | ->]; (split; [exact Hret |]).
    + exists (output w1). now apply Hlong.
    + exists (output w1). now apply Hmissing.
Qed.

End Facts.

Import SampleTimecode.

Lemma splitters_None_iff_empty_witness :
  snd (split_video_mkvmerge (always 0 None) [] three_scenes
         "$VIDEO_NAME" "clip" false initial_world) = initial_world /\
  snd (split_video_ffmpeg (always 0 None) [] three_scenes
         "$VIDEO_NAME" "clip" DEFAULT_ARG_OVERRIDE false false initial_world)
    = initial_world.
Proof.
  apply (proj2 (proj2 (splitters_None_iff_empty (always 0 None) [] three_scenes
                         "$VIDEO_NAME" "clip" DEFAULT_ARG_OVERRIDE false false
                         initial_world))).
  left; reflexivity.
Defined.

Lemma split_video_ffmpeg_multiple_inputs_witness :
  fst (split_video_ffmpeg (always 0 None) ["a.mp4"; "b.mp4"] three_scenes
         "$VIDEO_NAME-$SCENE_NUMBER" "clip" DEFAULT_ARG_OVERRIDE false false
         initial_world)
    = Raise NotImplementedError /\
  invocations
    (snd (split_video_ffmpeg (always 0 None) ["a.mp4"; "b.mp4"] three_scenes
            "$VIDEO_NAME-$SCENE_NUMBER" "clip" DEFAULT_ARG_OVERRIDE false false
            initial_world))
    = invocations initial_world.
Proof.
  apply (split_video_ffmpeg_multiple_inputs (always 0 None)).
  - simpl; lia.
  - discriminate.
Defined.

Lemma splitters_return_0_when_invoker_raises_witness :
  fst (split_video_mkvmerge (raising OSError None) ["a.mp4"] three_scenes
         "$VIDEO_NAME" "clip" false initial_world) = Ret (Some 0%Z) /\
  fst (split_video_ffmpeg (raising CommandTooLong None) ["a.mp4"] three_scenes
         "$VIDEO_NAME-$SCENE_NUMBER" "clip" DEFAULT_ARG_OVERRIDE false false
         initial_world) = Ret (Some 0%Z).
Proof.
  split.
  - apply (proj1 (splitters_return_0_when_invoker_raises
                    (raising OSError None) OSError "a.mp4" []
                    (at_frame 0, at_frame 10)
                    [(at_frame 10, at_frame 20); (at_frame 20, at_frame 30)]
                    "$VIDEO_NAME" "clip" DEFAULT_ARG_OVERRIDE false false
                    initial_world (or_intror eq_refl))).
    reflexivity.
  - apply (proj2 (splitters_return_0_when_invoker_raises
                    (raising CommandTooLong None) CommandTooLong "a.mp4" []
                    (at_frame 0, at_frame 10)
                    [(at_frame 10, at_frame 20); (at_frame 20, at_frame 30)]
                    "$VIDEO_NAME-$SCENE_NUMBER" "clip" DEFAULT_ARG_OVERRIDE
                    false false initial_world (or_introl eq_refl))).
    reflexivity.
Defined.

Lemma split_video_mkvmerge_average_speed_witness :
  speed_reports
    (output (snd (split_video_mkvmerge (always 1 None) ["a.mp4"] three_scenes
                    "$VIDEO_NAME" "clip" false initial_world)))
  = [(30%Z, Qminus (inject_Z 1) (inject_Z 0))].
Proof.
  assert (Hpaths : ["a.mp4"] <> []) by discriminate.
  exact (proj1 (split_video_mkvmerge_average_speed (always 1 None) ["a.mp4"]
                  three_scenes "$VIDEO_NAME" "clip" false initial_world)
           (at_frame 0, at_frame 10)
           [(at_frame 10, at_frame 20); (at_frame 20, at_frame 30)] 1%Z
           Hpaths eq_refl eq_refl eq_refl eq_refl).
Defined.

(** C9 as stated fails.  On a successful split (exit code 0) of three scenes
    with output suppressed no speed is reported; and on a failed split (exit
    code 1) with output shown the speed is reported all the same. *)
Lemma split_video_mkvmerge_speed_not_tied_to_success :
  let quiet :=
    split_video_mkvmerge (always 0 None) ["a.mp4"] three_scenes
      "$VIDEO_NAME" "clip" true initial_world in
  let failed :=
    split_video_mkvmerge (always 1 None) ["a.mp4"] three_scenes
      "$VIDEO_NAME" "clip" false initial_world in
  (fst quiet = Ret (Some 0%Z) /\ speed_reports (output (snd quiet)) = []) /\
  (fst failed = Ret (Some 1%Z) /\
   speed_reports (output (snd failed))
   = [(30%Z, Qminus (inject_Z 1) (inject_Z 0))]).
Proof.
  cbv zeta. repeat split.
Qed.

End SplitterFacts.

(** ** The transcode splitter on any backend *)

Module TranscodeFacts.

Section Facts.

Context {T : Type} `{FrameTimecode T}.
Variable env : environment.

Section Loop.

Variables (input_video_path : string) (arg_override : list string)
          (output_file_template video_name : string)
          (suppress_output progress_bar : bool) (scene_count : nat).

Let call (i : nat) (sc : scene) : list string :=
  ffmpeg_call_list env input_video_path arg_override output_file_template
                   video_name suppress_output scene_count i sc.

Let loop (i : nat) (todo : list scene) (ret_val : Z) (w : world) :=
  ffmpeg_loop env input_video_path arg_override output_file_template video_name
              suppress_output progress_bar scene_count i todo ret_val w.

Let calls (i : nat) (todo : list scene) : list (list string) :=
  ffmpeg_calls env input_video_path arg_override output_file_template video_name
               suppress_output scene_count i todo.

Lemma speed_reports_emit (e : event) (w : world) :
  (forall total elapsed, e <> InfoAverageSpeed total elapsed) ->
  speed_reports (output (emit e w)) = speed_reports (output w).
Proof.
  intros Hother. cbn [emit output].
  rewrite SplitterFacts.speed_reports_app.
  destruct e; cbn; rewrite ?app_nil_r; try reflexivity.
  now contradiction (Hother total_frames elapsed).
Qed.

Lemma invocations_emit (e : event) (w : world) :
  invocations (emit e w) = invocations w.
Proof. reflexivity. Qed.

Lemma clock_reads_emit (e : event) (w : world) :
  clock_reads (emit e w) = clock_reads w.
Proof. reflexivity. Qed.

Lemma speed_reports_if_emit (b : bool) (e : event) (w : world) :
  (forall total elapsed, e <> InfoAverageSpeed total elapsed) ->
  speed_reports (output (if b then emit e w else w)) = speed_reports (output w).
Proof. intros Hother. destruct b; [now apply speed_reports_emit | reflexivity]. Qed.

Lemma clock_reads_if_emit (b : bool) (e : event) (w : world) :
  clock_reads (if b then emit e w else w) = clock_reads w.
Proof. destruct b; reflexivity. Qed.

(** Whatever the backend does, the loop invokes it for the scenes in order,
    each at most once and at least the first; it does not read the clock and
    reports no speed. *)
Lemma ffmpeg_loop_trace (todo : list scene) :
  forall (i : nat) (ret_val : Z) (w : world),
  exists k : nat,
    (k <= List.length todo)%nat /\
    (todo <> [] -> 1 <= k)%nat /\
    invocations (snd (loop i todo ret_val w))
    = invocations w ++ firstn k (calls i todo) /\
    clock_reads (snd (loop i todo ret_val w)) = clock_reads w /\
    speed_reports (output (snd (loop i todo ret_val w)))
    = speed_reports (output w).
Proof.
  induction todo as [| sc rest IH]; intros i ret_val w.
  - exists 0%nat. cbn. rewrite app_nil_r. repeat split; [lia | congruence].
  - unfold loop; cbn [ffmpeg_loop]; unfold run_command.
    destruct (invoke_command env _ _) as [code | e].
    + destruct (Z.eqb code 0) eqn:Hcode; cbn [negb].
      * match goal with
        | |- context [ffmpeg_loop _ _ _ _ _ _ _ _ (S i) rest code ?w1] =>
            destruct (IH (S i) code w1) as (k & Hk & _ & Hinv & Hclock & Hspeed)
        end.
        unfold loop in Hinv, Hclock, Hspeed.
        exists (S k). rewrite Hinv, Hclock, Hspeed.
        rewrite ?SplitterFacts.invocations_if_emit, ?clock_reads_if_emit,
          ?speed_reports_if_emit by discriminate.
        unfold calls.
        cbn [invocations clock_reads output List.length firstn ffmpeg_calls].
        repeat split; try lia.
        now rewrite <- app_assoc.
      * exists 1%nat. cbn [snd].
        rewrite speed_reports_emit, invocations_emit, clock_reads_emit
          by discriminate.
        rewrite ?SplitterFacts.invocations_if_emit, ?clock_reads_if_emit,
          ?speed_reports_if_emit by discriminate.
        unfold calls.
        cbn [invocations clock_reads output List.length firstn ffmpeg_calls].
        repeat split; lia.
    + exists 1%nat. unfold calls.
      cbn [snd invocations clock_reads output List.length firstn ffmpeg_calls].
      repeat split; lia.
Qed.

Lemma progress_updates_app (evs evs' : list event) :
  progress_updates (evs ++ evs') = progress_updates evs ++ progress_updates evs'.
Proof.
  induction evs as [| ev evs IH]; [reflexivity |].
  destruct ev; cbn; rewrite IH; reflexivity.
Qed.

Lemma progress_updates_emit (e : event) (w : world) :
  progress_updates (output (emit e w))
  = progress_updates (output w) ++ progress_updates [e].
Proof. cbn [emit output]. apply progress_updates_app. Qed.

(** While the backend exits with 0, each scene gives one invocation and,
    with an active bar, one progress update of its frame count. *)
Lemma ffmpeg_loop_successes_progress (done : list scene) :
  forall (i : nat) (rest : list scene) (ret_val : Z) (w : world),
    (forall j sc, nth_error done j = Some sc ->
                  invoke_command env (List.length (invocations w) + j)
                                 (call (i + j) sc) = Ret 0%Z) ->
    exists w' : world,
      loop i (done ++ rest) ret_val w
      = loop (i + List.length done) rest
             (match done with [] => ret_val | _ :: _ => 0%Z end) w'
      /\ invocations w' = invocations w ++ calls i done
      /\ progress_updates (output w')
         = progress_updates (output w)
           ++ (if progress_bar then map scene_frames done else []).
Proof.
  induction done as [| sc done' IH]; intros i rest ret_val w Hzero.
  - exists w. cbn [List.length app map]. rewrite Nat.add_0_r.
    split; [reflexivity |]. unfold calls; cbn [ffmpeg_calls].
    rewrite !app_nil_r. now destruct progress_bar; rewrite ?app_nil_r.
  - pose proof (Hzero 0%nat sc eq_refl) as Hfirst.
    rewrite !Nat.add_0_r in Hfirst.
    unfold loop; cbn [app ffmpeg_loop]; unfold run_command.
    fold (call i sc). rewrite Hfirst. cbn [Z.eqb negb].
    match goal with
    | |- context [ffmpeg_loop _ _ _ _ _ _ _ _ (S i) (done' ++ rest) 0%Z ?w1] =>
        destruct (IH (S i) rest 0%Z w1) as (w' & Hloop & Hinv & Hprog)
    end.
    + intros j sc' Hj.
      rewrite !SplitterFacts.invocations_if_emit. cbn [invocations].
      rewrite length_app. cbn [List.length].
      replace (List.length (invocations w) + 1 + j)%nat
        with (List.length (invocations w) + S j)%nat by lia.
      replace (S i + j)%nat with (i + S j)%nat by lia.
      now apply Hzero.
    + exists w'. split; [| split].
      * unfold loop in Hloop. rewrite Hloop.
        cbn [List.length]. replace (i + S (List.length done'))%nat
          with (S i + List.length done')%nat by lia.
        now destruct done'.
      * rewrite Hinv, !SplitterFacts.invocations_if_emit. cbn [invocations].
        unfold calls; cbn [ffmpeg_calls]. now rewrite <- app_assoc.
      * rewrite Hprog. cbn [map].
        destruct progress_bar;
          destruct (negb suppress_output && (i =? 0)%nat && (1 <? scene_count)%nat);
          rewrite ?progress_updates_emit; cbn [output progress_updates];
          rewrite ?app_nil_r, <- ?app_assoc; reflexivity.
Qed.

(** A loop entered with [ret_val = 0] comes out with a nonzero [ret_val]
    only through [break]: the last scene it invoked the backend for exited
    with that code, and the scenes before it with 0. *)
Lemma ffmpeg_loop_nonzero (todo : list scene) :
  forall (i : nat) (w : world) (fl : flow) (code : Z) (w' : world),
    loop i todo 0%Z w = (fl, code, w') ->
    code <> 0%Z ->
    fl = Normal /\
    exists (k : nat) (sc : scene),
      nth_error todo k = Some sc /\
      invoke_command env (List.length (invocations w) + k) (call (i + k) sc)
      = Ret code /\
      (forall j sc', (j < k)%nat -> nth_error todo j = Some sc' ->
                     invoke_command env (List.length (invocations w) + j)
                                    (call (i + j) sc') = Ret 0%Z) /\
      List.length (invocations w') = (List.length (invocations w) + S k)%nat.
Proof.
  induction todo as [| sc rest IH]; intros i w fl code w' Hloop Hnz.
  - cbn in Hloop. injection Hloop as _ <- _. contradiction.
  - unfold loop in Hloop; cbn [ffmpeg_loop] in Hloop; unfold run_command in Hloop.
    fold (call i sc) in Hloop.
    destruct (invoke_command env (List.length (invocations w)) (call i sc))
      as [c | e] eqn:Hout.
    + destruct (Z.eqb c 0) eqn:Hc; cbn [negb] in Hloop.
      * apply Z.eqb_eq in Hc; subst c.
        apply IH in Hloop; [| exact Hnz].
        destruct Hloop as (Hfl & k & sc' & Hk & Hcode & Hbefore & Hlen).
        rewrite !SplitterFacts.invocations_if_emit in Hcode, Hbefore, Hlen.
        cbn [invocations] in Hcode, Hbefore, Hlen.
        rewrite length_app in Hcode, Hbefore, Hlen. cbn [List.length] in *.
        split; [exact Hfl |]. exists (S k), sc'. repeat split.
        -- exact Hk.
        -- replace (List.length (invocations w) + S k)%nat
             with (List.length (invocations w) + 1 + k)%nat by lia.
           now replace (i + S k)%nat with (S i + k)%nat by lia.
        -- intros j sc'' Hj Hsc. destruct j as [| j].
           ++ cbn in Hsc. injection Hsc as <-. now rewrite !Nat.add_0_r.
           ++ replace (List.length (invocations w) + S j)%nat
                with (List.length (invocations w) + 1 + j)%nat by lia.
              replace (i + S j)%nat with (S i + j)%nat by lia.
              apply Hbefore; [lia | exact Hsc].
        -- lia.
      * injection Hloop as <- <- <-.
        split; [reflexivity |]. exists 0%nat, sc. rewrite !Nat.add_0_r.
        repeat split.
        -- exact Hout.
        -- intros j sc' Hj. lia.
        -- rewrite invocations_emit, SplitterFacts.invocations_if_emit.
           cbn [invocations]. rewrite length_app. cbn. lia.
    + injection Hloop as _ <- _. contradiction.
Qed.

(** When the invoker never raises, no exception escapes from the loop. *)
Lemma ffmpeg_loop_normal (todo : list scene) :
  (forall k args, exists code, invoke_command env k args = Ret code) ->
  forall (i : nat) (ret_val : Z) (w : world),
    fst (fst (loop i todo ret_val w)) = Normal.
Proof.
  intros Hreturns.
  induction todo as [| sc rest IH]; intros i ret_val w; [reflexivity |].
  unfold loop; cbn [ffmpeg_loop]; unfold run_command.
  destruct (Hreturns (List.length (invocations w)) (call i sc)) as [code Hcode].
  fold (call i sc). rewrite Hcode.
  destruct (Z.eqb code 0); cbn [negb]; [apply IH | reflexivity].
Qed.

End Loop.

(** *** The splitter around the loop *)

Lemma ffmpeg_loop_start_invocations (template : string) (hide_progress : bool)
    (total_frames : Z) (w : world) :
  invocations (ffmpeg_loop_start env template hide_progress total_frames w)
  = invocations w.
Proof.
  unfold ffmpeg_loop_start.
  destruct (tqdm env); [destruct hide_progress |]; reflexivity.
Qed.

Lemma ffmpeg_loop_end_invocations (bar : bool) (total_frames : Z) (t0 : Q)
    (e : flow * Z * world) :
  invocations (snd (ffmpeg_loop_end env bar total_frames t0 e))
  = invocations (snd e).
Proof.
  destruct e as [[fl rv] w1]. unfold ffmpeg_loop_end, now.
  destruct fl as [| ex]; [destruct bar; [destruct (Qeq_bool _ _) |] | destruct ex];
    reflexivity.
Qed.

Section Run.

Variables (input_video_path : string)
          (first_scene : @scene T) (later : list (@scene T))
          (template video_name arg_override : string)
          (hide_progress suppress_output : bool) (w : world).

Let scene_list : list (@scene T) := first_scene :: later.

Let total_frames : Z :=
  (get_frames (snd (last scene_list first_scene)) - get_frames (fst first_scene))%Z.

Let progress_bar : bool := ffmpeg_progress_bar env hide_progress total_frames.

Let ended : flow * Z * world :=
  ffmpeg_loop env input_video_path (tokenize_arg_override arg_override)
    template video_name suppress_output progress_bar (List.length scene_list)
    0 scene_list 0%Z
    (ffmpeg_loop_start env template hide_progress total_frames w).

Let run : result (option Z) * world :=
  split_video_ffmpeg env [input_video_path] scene_list template video_name
    arg_override hide_progress suppress_output w.

(** With one input path and at least one scene, the splitter is its loop
    between the start and the end above. *)
Lemma split_video_ffmpeg_run :
  run = ffmpeg_loop_end env progress_bar total_frames
          (time_time env (clock_reads w)) ended.
Proof.
  unfold run, ended, progress_bar, total_frames, scene_list,
    split_video_ffmpeg, ffmpeg_loop_start, ffmpeg_progress_bar, ffmpeg_loop_end.
  change (1 <? List.length [input_video_path])%nat with false. cbv iota.
  destruct (tqdm env) as [bar_bool |]; [destruct hide_progress |];
    reflexivity.
Qed.

Lemma nth_error_ffmpeg_calls (p : string) (tokens : list string)
    (suppress : bool) (n : nat) (todo : list (@scene T)) :
  forall i j : nat,
    nth_error (ffmpeg_calls env p tokens template video_name suppress n i todo) j
    = option_map (ffmpeg_call_list env p tokens template video_name suppress n
                    (i + j))
                 (nth_error todo j).
Proof.
  induction todo as [| sc rest IH]; intros i j.
  - now destruct j.
  - destruct j as [| j]; cbn [ffmpeg_calls nth_error option_map].
    + now rewrite Nat.add_0_r.
    + rewrite IH. now replace (S i + j)%nat with (i + S j)%nat by lia.
Qed.

Lemma ffmpeg_call_list_shape (p : string) (tokens : list string)
    (suppress : bool) (n i : nat) (start_time end_time : T) :
  ffmpeg_call_list env p tokens template video_name suppress n i
    (start_time, end_time)
  = ["ffmpeg"] ++ ffmpeg_verbosity suppress i ++
    ["-y"; "-ss"; str_get_seconds start_time; "-i"; p;
     "-t"; str_get_seconds (sub end_time start_time)] ++
    tokens ++ ["-sn"; ffmpeg_output_file_name env template video_name n i].
Proof.
  unfold ffmpeg_call_list, ffmpeg_verbosity.
  destruct suppress; [| destruct (0 <? i)%nat];
    cbn [app]; rewrite <- ?app_assoc; reflexivity.
Qed.

(** X1: Whatever the backend does, the splitter invokes it at least once and at
    most once per scene, and the [j]-th invocation is the one for the [j]-th
    scene: it seeks to that scene's start, lasts that scene's end minus its
    start, reads the one input path, carries the override tokens, and writes
    to the output name of scene [j]; only the first invocation may show the
    full output of the tool. *)
Theorem split_video_ffmpeg_invocations_follow_scenes :
  exists made : list (list string),
    invocations (snd run) = invocations w ++ made /\
    (1 <= List.length made <= List.length scene_list)%nat /\
    (forall (j : nat) (call_list : list string),
        nth_error made j = Some call_list ->
        exists start_time end_time : T,
          nth_error scene_list j = Some (start_time, end_time) /\
          call_list
          = ["ffmpeg"] ++ ffmpeg_verbosity suppress_output j ++
            ["-y"; "-ss"; str_get_seconds start_time; "-i"; input_video_path;
             "-t"; str_get_seconds (sub end_time start_time)] ++
            tokenize_arg_override arg_override ++
            ["-sn"; ffmpeg_output_file_name env template video_name
                      (List.length scene_list) j]).
Proof.
  rewrite split_video_ffmpeg_run.
  destruct (ffmpeg_loop_trace input_video_path
              (tokenize_arg_override arg_override) template video_name
              suppress_output progress_bar (List.length scene_list) scene_list
              0 0%Z (ffmpeg_loop_start env template hide_progress total_frames w))
    as (k & Hk & Hone & Hinv & _).
  fold ended in Hinv. rewrite ffmpeg_loop_start_invocations in Hinv.
  eexists. split; [rewrite ffmpeg_loop_end_invocations; exact Hinv |].
  assert (Hlen : List.length
                   (firstn k
                      (ffmpeg_calls env input_video_path
                         (tokenize_arg_override arg_override) template
                         video_name suppress_output (List.length scene_list) 0
                         scene_list)) = k).
  { rewrite length_firstn, SplitterFacts.ffmpeg_calls_length. lia. }
  split.
  - rewrite Hlen. split; [apply Hone; discriminate | exact Hk].
  - intros j call_list Hj.
    assert (Hjk : (j < k)%nat).
    { rewrite <- Hlen. apply nth_error_Some. congruence. }
    rewrite nth_error_firstn in Hj.
    apply Nat.ltb_lt in Hjk. rewrite Hjk in Hj.
    rewrite nth_error_ffmpeg_calls in Hj. cbn [Nat.add] in Hj.
    destruct (nth_error scene_list j) as [[start_time end_time] |] eqn:Hsc;
      [| discriminate].
    cbn [option_map] in Hj. injection Hj as <-.
    exists start_time, end_time. split; [reflexivity |].
    apply ffmpeg_call_list_shape.
Qed.

End Run.

(** *** What a call comes to *)

Lemma ffmpeg_loop_start_progress (template : string) (hide_progress : bool)
    (total_frames : Z) (w : world) :
  progress_updates
    (output (ffmpeg_loop_start env template hide_progress total_frames w))
  = progress_updates (output w).
Proof.
  unfold ffmpeg_loop_start.
  destruct (tqdm env); [destruct hide_progress |]; cbn;
    rewrite !progress_updates_app; cbn; now rewrite ?app_nil_r.
Qed.

Lemma ffmpeg_loop_start_speed (template : string) (hide_progress : bool)
    (total_frames : Z) (w : world) :
  speed_reports
    (output (ffmpeg_loop_start env template hide_progress total_frames w))
  = speed_reports (output w).
Proof.
  unfold ffmpeg_loop_start.
  destruct (tqdm env); [destruct hide_progress |]; cbn;
    rewrite !SplitterFacts.speed_reports_app; cbn; now rewrite ?app_nil_r.
Qed.

Lemma ffmpeg_loop_start_clock (template : string) (hide_progress : bool)
    (total_frames : Z) (w : world) :
  clock_reads (ffmpeg_loop_start env template hide_progress total_frames w)
  = S (clock_reads w).
Proof.
  unfold ffmpeg_loop_start.
  destruct (tqdm env); [destruct hide_progress |]; reflexivity.
Qed.

Lemma ffmpeg_loop_end_progress (bar : bool) (total_frames : Z) (t0 : Q)
    (e : flow * Z * world) :
  progress_updates (output (snd (ffmpeg_loop_end env bar total_frames t0 e)))
  = progress_updates (output (snd e)).
Proof.
  destruct e as [[fl rv] w1]. unfold ffmpeg_loop_end, now.
  destruct fl as [| ex]; [destruct bar; [destruct (Qeq_bool _ _) |] | destruct ex];
    cbn; rewrite ?progress_updates_app; cbn; now rewrite ?app_nil_r.
Qed.

(** After a loop that ended without an exception the splitter returns
    [ret_val], unless the bar is active and no time has elapsed: then the
    division of the speed report raises. *)
Lemma ffmpeg_loop_end_normal (bar : bool) (total_frames : Z) (t0 : Q)
    (ret_val : Z) (w1 : world) :
  fst (ffmpeg_loop_end env bar total_frames t0 (Normal, ret_val, w1))
  = if bar && Qeq_bool (Qminus (time_time env (clock_reads w1)) t0) 0
    then Raise ZeroDivisionError
    else Ret (Some ret_val).
Proof.
  unfold ffmpeg_loop_end, now. cbn [emit clock_reads].
  destruct bar; [destruct (Qeq_bool _ _) |]; reflexivity.
Qed.

(** The loop of a call reads the clock once before and not at all inside. *)
Lemma ffmpeg_loop_clock (input_video_path : string) (tokens : list string)
    (template video_name : string) (hide_progress suppress_output bar : bool)
    (n : nat) (todo : list scene) (total_frames : Z) (w : world)
    (fl : flow) (ret_val : Z) (w1 : world) :
  ffmpeg_loop env input_video_path tokens template video_name suppress_output
    bar n 0 todo 0%Z (ffmpeg_loop_start env template hide_progress total_frames w)
  = (fl, ret_val, w1) ->
  clock_reads w1 = S (clock_reads w).
Proof.
  intros Hloop.
  destruct (ffmpeg_loop_trace input_video_path tokens template video_name
              suppress_output bar n todo 0 0%Z
              (ffmpeg_loop_start env template hide_progress total_frames w))
    as (k & _ & _ & _ & Hclock & _).
  cbv beta in Hclock. rewrite Hloop in Hclock. cbn [snd] in Hclock.
  now rewrite Hclock, ffmpeg_loop_start_clock.
Qed.

(** X2: When the backend exits with 0 on every scene, the splitter makes one
    invocation per scene, in scene order, an active progress bar has been
    advanced by the frame count of each scene in turn, and the splitter
    returns 0, provided the progress bar is not active or the time elapsed
    between its two clock readings is not zero. *)
Theorem split_video_ffmpeg_all_scenes
    (input_video_path : string) (first_scene : scene) (later : list scene)
    (template video_name arg_override : string)
    (hide_progress suppress_output : bool) (w : world) :
  (forall j sc,
      nth_error (first_scene :: later) j = Some sc ->
      invoke_command env (List.length (invocations w) + j)
        (ffmpeg_call_list env input_video_path
           (tokenize_arg_override arg_override) template video_name
           suppress_output (List.length (first_scene :: later)) j sc)
      = Ret 0%Z) ->
  (ffmpeg_progress_bar env hide_progress
     (get_frames (snd (last (first_scene :: later) first_scene))
      - get_frames (fst first_scene)) = false \/
   Qeq_bool (Qminus (time_time env (S (clock_reads w)))
                    (time_time env (clock_reads w))) 0 = false ->
   fst (split_video_ffmpeg env [input_video_path] (first_scene :: later)
          template video_name arg_override hide_progress suppress_output w)
   = Ret (Some 0%Z)) /\
  invocations
    (snd (split_video_ffmpeg env [input_video_path] (first_scene :: later)
            template video_name arg_override hide_progress suppress_output w))
    = invocations w ++
      ffmpeg_calls env input_video_path (tokenize_arg_override arg_override)
        template video_name suppress_output
        (List.length (first_scene :: later)) 0 (first_scene :: later) /\
  progress_updates
    (output
       (snd (split_video_ffmpeg env [input_video_path] (first_scene :: later)
               template video_name arg_override hide_progress suppress_output
               w)))
    = progress_updates (output w) ++
      (if ffmpeg_progress_bar env hide_progress
            (get_frames (snd (last (first_scene :: later) first_scene))
             - get_frames (fst first_scene))
       then map scene_frames (first_scene :: later)
       else []).
Proof.
  intros Hzero.
  rewrite split_video_ffmpeg_run.
  set (total_frames := (get_frames (snd (last (first_scene :: later) first_scene))
                        - get_frames (fst first_scene))%Z).
  set (bar := ffmpeg_progress_bar env hide_progress total_frames).
  set (w0 := ffmpeg_loop_start env template hide_progress total_frames w).
  destruct (ffmpeg_loop_successes_progress input_video_path
              (tokenize_arg_override arg_override) template video_name
              suppress_output bar (List.length (first_scene :: later))
              (first_scene :: later) 0 [] 0%Z w0) as (w' & Hloop & Hinv & Hprog).
  { intros j sc Hj. unfold w0. rewrite ffmpeg_loop_start_invocations.
    now apply Hzero. }
  rewrite app_nil_r in Hloop.
  assert (Hended :
    ffmpeg_loop env input_video_path (tokenize_arg_override arg_override)
      template video_name suppress_output bar
      (List.length (first_scene :: later)) 0 (first_scene :: later) 0%Z w0
    = (Normal, 0%Z, w')).
  { rewrite Hloop. reflexivity. }
  rewrite Hended.
  split; [| split].
  - intros Hfine. rewrite ffmpeg_loop_end_normal.
    rewrite (ffmpeg_loop_clock _ _ _ _ _ _ _ _ _ _ _ _ _ _ Hended).
    destruct Hfine as [-> | ->]; [reflexivity | now rewrite andb_false_r].
  - rewrite ffmpeg_loop_end_invocations. cbn [snd]. rewrite Hinv. unfold w0.
    now rewrite ffmpeg_loop_start_invocations.
  - rewrite ffmpeg_loop_end_progress. cbn [snd]. rewrite Hprog. unfold w0.
    now rewrite ffmpeg_loop_start_progress.
Qed.

Lemma last_cons_default {A : Type} (l : list A) :
  forall x d d' : A, last (x :: l) d = last (x :: l) d'.
Proof.
  induction l as [| y l IH]; intros x d d'; [reflexivity |].
  change (last (x :: y :: l) d) with (last (y :: l) d).
  change (last (x :: y :: l) d') with (last (y :: l) d').
  apply IH.
Qed.

Lemma last_behind_prefix {A : Type} (before : list A) (x : A) (after : list A)
    (d : A) :
  last (before ++ x :: after) d = last (x :: after) x.
Proof.
  induction before as [| b before IH]; [apply last_cons_default |].
  cbn [app]. destruct (before ++ x :: after) eqn:Heq;
    [destruct before; discriminate |].
  change (last (b :: a :: l) d) with (last (a :: l) d). exact IH.
Qed.

Lemma ffmpeg_loop_end_speed_raised (bar : bool) (total_frames : Z) (t0 : Q)
    (e : exn) (ret_val : Z) (w1 : world) :
  speed_reports
    (output (snd (ffmpeg_loop_end env bar total_frames t0 (Raised e, ret_val, w1))))
  = speed_reports (output w1).
Proof.
  destruct e; cbn; rewrite ?SplitterFacts.speed_reports_app; cbn;
    now rewrite ?app_nil_r.
Qed.

(** X4: When the backend exits with 0 on the scenes [before] and the invoker then
    raises [CommandTooLong] or [OSError] on the next scene, the splitter still
    returns 0: it stops there, after one invocation more than [before] has
    scenes, logs the handler's message last, has advanced an active progress
    bar for the scenes [before] only, and reports no speed. *)
Theorem split_video_ffmpeg_invoker_raises_later
    (e : exn) (input_video_path : string) (before after : list scene)
    (failing : scene) (template video_name arg_override : string)
    (hide_progress suppress_output : bool) (w : world) :
  e = CommandTooLong \/ e = OSError ->
  (forall j sc,
      nth_error before j = Some sc ->
      invoke_command env (List.length (invocations w) + j)
        (ffmpeg_call_list env input_video_path
           (tokenize_arg_override arg_override) template video_name
           suppress_output (List.length (before ++ failing :: after)) j sc)
      = Ret 0%Z) ->
  invoke_command env (List.length (invocations w) + List.length before)
    (ffmpeg_call_list env input_video_path
       (tokenize_arg_override arg_override) template video_name
       suppress_output (List.length (before ++ failing :: after))
       (List.length before) failing)
  = Raise e ->
  let run :=
    split_video_ffmpeg env [input_video_path] (before ++ failing :: after)
      template video_name arg_override hide_progress suppress_output w in
  fst run = Ret (Some 0%Z) /\
  List.length (invocations (snd run))
  = (List.length (invocations w) + (List.length before + 1))%nat /\
  (exists earlier : list event,
      output (snd run) = earlier ++ [handler_message Ffmpeg e]) /\
  progress_updates (output (snd run))
  = progress_updates (output w) ++
    (if ffmpeg_progress_bar env hide_progress
          (get_frames (snd (last (failing :: after) failing))
           - get_frames (fst (hd failing before)))
     then map scene_frames before
     else []) /\
  speed_reports (output (snd run)) = speed_reports (output w).
Proof.
  intros Hexn Hbefore Hraise run. subst run.
  rewrite <- (last_behind_prefix before failing after (hd failing before)).
  remember (before ++ failing :: after) as scene_list eqn:Hsl.
  destruct scene_list as [| first_scene later]; [destruct before; discriminate |].
  replace (hd failing before) with first_scene
    by (destruct before; cbn in Hsl |- *; congruence).
  rewrite split_video_ffmpeg_run.
  set (total_frames := (get_frames (snd (last (first_scene :: later) first_scene))
                        - get_frames (fst first_scene))%Z).
  set (bar := ffmpeg_progress_bar env hide_progress total_frames).
  set (w0 := ffmpeg_loop_start env template hide_progress total_frames w).
  set (n := List.length (first_scene :: later)) in *. clearbody n.
  rewrite Hsl.
  destruct (ffmpeg_loop_successes_progress input_video_path
              (tokenize_arg_override arg_override) template video_name
              suppress_output bar n before 0 (failing :: after) 0%Z w0)
    as (w1 & Hloop & Hinv1 & Hprog1).
  { intros j sc Hj. unfold w0. rewrite ffmpeg_loop_start_invocations.
    now apply Hbefore. }
  rewrite Hloop.
  destruct (SplitterFacts.ffmpeg_loop_raise env input_video_path
              (tokenize_arg_override arg_override) template video_name
              suppress_output bar n (0 + List.length before) failing after
              (match before with [] => 0%Z | _ :: _ => 0%Z end) e w1)
    as (w2 & Hloop2 & Hinv2 & Hout2).
  { rewrite Hinv1, length_app, SplitterFacts.ffmpeg_calls_length.
    unfold w0. rewrite ffmpeg_loop_start_invocations. exact Hraise. }
  rewrite Hloop2.
  replace (match before with [] => 0%Z | _ :: _ => 0%Z end) with 0%Z
    by now destruct before.
  split; [| split; [| split; [| split]]].
  - destruct Hexn as [-> | ->]; reflexivity.
  - rewrite ffmpeg_loop_end_invocations. cbn [snd].
    rewrite Hinv2, Hinv1. unfold w0.
    rewrite ffmpeg_loop_start_invocations, !length_app,
      SplitterFacts.ffmpeg_calls_length. cbn [List.length]. lia.
  - exists (output w2). destruct Hexn as [-> | ->]; reflexivity.
  - rewrite ffmpeg_loop_end_progress. cbn [snd].
    rewrite Hout2, Hprog1. unfold w0.
    now rewrite ffmpeg_loop_start_progress.
  - rewrite ffmpeg_loop_end_speed_raised, Hout2.
    assert (Hspeed1 : speed_reports (output w1) = speed_reports (output w0)).
    { destruct (ffmpeg_loop_trace input_video_path
                  (tokenize_arg_override arg_override) template video_name
                  suppress_output bar n (before ++ failing :: after) 0 0%Z w0)
        as (k & _ & _ & _ & _ & Hspeed).
      rewrite Hloop, Hloop2 in Hspeed. cbn [snd] in Hspeed.
      now rewrite Hout2 in Hspeed. }
    rewrite Hspeed1. unfold w0. apply ffmpeg_loop_start_speed.
Qed.

(** X5: A nonzero result is the exit code of the last child process: when the
    splitter returns a nonzero [code], the backend exited with [code] on some
    scene, with 0 on every scene before it, and was not invoked again. *)
Theorem split_video_ffmpeg_nonzero_result
    (input_video_path : string) (first_scene : scene) (later : list scene)
    (template video_name arg_override : string)
    (hide_progress suppress_output : bool) (w : world) (code : Z) :
  fst (split_video_ffmpeg env [input_video_path] (first_scene :: later)
         template video_name arg_override hide_progress suppress_output w)
    = Ret (Some code) ->
  code <> 0%Z ->
  exists (k : nat) (sc : scene),
    nth_error (first_scene :: later) k = Some sc /\
    invoke_command env (List.length (invocations w) + k)
      (ffmpeg_call_list env input_video_path
         (tokenize_arg_override arg_override) template video_name
         suppress_output (List.length (first_scene :: later)) k sc)
    = Ret code /\
    (forall j sc',
        (j < k)%nat ->
        nth_error (first_scene :: later) j = Some sc' ->
        invoke_command env (List.length (invocations w) + j)
          (ffmpeg_call_list env input_video_path
             (tokenize_arg_override arg_override) template video_name
             suppress_output (List.length (first_scene :: later)) j sc')
        = Ret 0%Z) /\
    List.length
      (invocations
         (snd (split_video_ffmpeg env [input_video_path] (first_scene :: later)
                 template video_name arg_override hide_progress
                 suppress_output w)))
    = (List.length (invocations w) + S k)%nat.
Proof.
  rewrite split_video_ffmpeg_run. rewrite ffmpeg_loop_end_invocations.
  set (total_frames := (get_frames (snd (last (first_scene :: later) first_scene))
                        - get_frames (fst first_scene))%Z).
  set (bar := ffmpeg_progress_bar env hide_progress total_frames).
  set (w0 := ffmpeg_loop_start env template hide_progress total_frames w).
  destruct (ffmpeg_loop _ _ _ _ _ _ _ _ _ _ _ _) as [[fl rv] w1] eqn:Hloop.
  intros Hret Hnz.
  assert (Hrv : rv = code).
  { destruct fl as [| ex].
    - rewrite ffmpeg_loop_end_normal in Hret.
      destruct (bar && Qeq_bool _ _); [discriminate | congruence].
    - destruct ex; cbn in Hret; congruence. }
  subst rv.
  destruct (ffmpeg_loop_nonzero input_video_path
              (tokenize_arg_override arg_override) template video_name
              suppress_output bar (List.length (first_scene :: later))
              (first_scene :: later) 0 w0 fl code w1 Hloop Hnz)
    as (_ & k & sc & Hk & Hcode & Hbefore & Hlen).
  unfold w0 in Hcode, Hbefore, Hlen.
  rewrite ffmpeg_loop_start_invocations in Hcode, Hbefore, Hlen.
  exists k, sc. cbn [snd]. repeat split; assumption.
Qed.

Lemma ffmpeg_loop_end_speed_normal (bar : bool) (total_frames : Z) (t0 : Q)
    (ret_val : Z) (w1 : world) :
  speed_reports
    (output (snd (ffmpeg_loop_end env bar total_frames t0 (Normal, ret_val, w1))))
  = speed_reports (output w1) ++
    (if bar && negb (Qeq_bool (Qminus (time_time env (clock_reads w1)) t0) 0)
     then [(total_frames, Qminus (time_time env (clock_reads w1)) t0)]
     else []).
Proof.
  unfold ffmpeg_loop_end, now. cbn [emit clock_reads].
  destruct bar; [destruct (Qeq_bool _ _) |]; cbn;
    rewrite ?SplitterFacts.speed_reports_app; cbn; now rewrite ?app_nil_r.
Qed.

(** X6: The transcode splitter reports the average speed on the progress bar's
    account, not on the result's.  When the invoker never raises and the bar
    is active, it reports the frame span from the first scene's start to the
    last scene's end over the time elapsed between its two clock readings,
    whether the split succeeded or stopped at a failing scene, provided that
    time is not zero; when it is zero the division raises
    [ZeroDivisionError] out of the splitter and nothing is reported.  When the
    bar is not active (library missing, progress hidden, or a bar that counts
    as false) nothing is reported. *)
Theorem split_video_ffmpeg_average_speed
    (input_video_path : string) (first_scene : scene) (later : list scene)
    (template video_name arg_override : string)
    (hide_progress suppress_output : bool) (w : world) :
  let total_frames :=
    (get_frames (snd (last (first_scene :: later) first_scene))
     - get_frames (fst first_scene))%Z in
  let elapsed :=
    Qminus (time_time env (S (clock_reads w))) (time_time env (clock_reads w)) in
  let run :=
    split_video_ffmpeg env [input_video_path] (first_scene :: later) template
      video_name arg_override hide_progress suppress_output w in
  ((forall k args, exists code, invoke_command env k args = Ret code) ->
   ffmpeg_progress_bar env hide_progress total_frames = true ->
   Qeq_bool elapsed 0 = false ->
   speed_reports (output (snd run))
   = speed_reports (output w) ++ [(total_frames, elapsed)]) /\
  ((forall k args, exists code, invoke_command env k args = Ret code) ->
   ffmpeg_progress_bar env hide_progress total_frames = true ->
   Qeq_bool elapsed 0 = true ->
   fst run = Raise ZeroDivisionError /\
   speed_reports (output (snd run)) = speed_reports (output w)) /\
  (ffmpeg_progress_bar env hide_progress total_frames = false ->
   speed_reports (output (snd run)) = speed_reports (output w)).
Proof.
  intros total_frames elapsed run. subst run elapsed.
  rewrite split_video_ffmpeg_run. fold total_frames.
  set (bar := ffmpeg_progress_bar env hide_progress total_frames).
  set (w0 := ffmpeg_loop_start env template hide_progress total_frames w).
  destruct (ffmpeg_loop_trace input_video_path
              (tokenize_arg_override arg_override) template video_name
              suppress_output bar (List.length (first_scene :: later))
              (first_scene :: later) 0 0%Z w0)
    as (k & _ & _ & _ & Hclock & Hspeed).
  unfold w0 in Hclock, Hspeed.
  rewrite ffmpeg_loop_start_clock in Hclock.
  rewrite ffmpeg_loop_start_speed in Hspeed. fold w0 in Hclock, Hspeed.
  assert (Hnormal :
    (forall k args, exists code, invoke_command env k args = Ret code) ->
    fst (fst (ffmpeg_loop env input_video_path
                (tokenize_arg_override arg_override) template video_name
                suppress_output bar (List.length (first_scene :: later)) 0
                (first_scene :: later) 0%Z w0)) = Normal).
  { intros Hreturns.
    exact (ffmpeg_loop_normal input_video_path
             (tokenize_arg_override arg_override) template video_name
             suppress_output bar (List.length (first_scene :: later))
             (first_scene :: later) Hreturns 0 0%Z w0). }
  destruct (ffmpeg_loop _ _ _ _ _ _ _ _ _ _ _ _) as [[fl rv] w1] eqn:Hloop.
  cbn [fst snd] in Hnormal, Hclock, Hspeed.
  split; [| split].
  - intros Hreturns Hbar Helapsed. rewrite (Hnormal Hreturns).
    rewrite ffmpeg_loop_end_speed_normal, Hspeed, Hclock, Hbar, Helapsed.
    reflexivity.
  - intros Hreturns Hbar Helapsed. rewrite (Hnormal Hreturns).
    rewrite ffmpeg_loop_end_normal, ffmpeg_loop_end_speed_normal,
      Hspeed, Hclock, Hbar, Helapsed.
    split; [reflexivity | apply app_nil_r].
  - intros Hbar. destruct fl as [| ex].
    + rewrite ffmpeg_loop_end_speed_normal, Hspeed, Hbar. apply app_nil_r.
    + now rewrite ffmpeg_loop_end_speed_raised.
Qed.

(** What follows the loop only adds to the log. *)
Lemma ffmpeg_loop_end_output (bar : bool) (total_frames : Z) (t0 : Q)
    (e : flow * Z * world) :
  exists more : list event,
    output (snd (ffmpeg_loop_end env bar total_frames t0 e))
    = output (snd e) ++ more.
Proof.
  destruct e as [[fl rv] w1]. unfold ffmpeg_loop_end, now.
  destruct fl as [| ex]; [destruct bar; [destruct (Qeq_bool _ _) |] | destruct ex];
    cbn [snd emit output]; rewrite <- ?app_assoc; eexists;
    try reflexivity; symmetry; apply app_nil_r.
Qed.

(** X3: When the backend exits with 0 on the scenes [before] and with a
    nonzero [code] on the next scene, the error with that code is logged, and
    an active progress bar has been advanced for the scenes [before] only. *)
Theorem split_video_ffmpeg_fail_fast_log
    (input_video_path : string) (before after : list scene) (failing : scene)
    (template video_name arg_override : string)
    (hide_progress suppress_output : bool) (w : world) (code : Z) :
  (forall j sc,
      nth_error before j = Some sc ->
      invoke_command env (List.length (invocations w) + j)
        (ffmpeg_call_list env input_video_path
           (tokenize_arg_override arg_override) template video_name
           suppress_output (List.length (before ++ failing :: after)) j sc)
      = Ret 0%Z) ->
  invoke_command env (List.length (invocations w) + List.length before)
    (ffmpeg_call_list env input_video_path
       (tokenize_arg_override arg_override) template video_name
       suppress_output (List.length (before ++ failing :: after))
       (List.length before) failing)
  = Ret code ->
  code <> 0%Z ->
  let run :=
    split_video_ffmpeg env [input_video_path] (before ++ failing :: after)
      template video_name arg_override hide_progress suppress_output w in
  In (ErrorReturned Ffmpeg code) (output (snd run)) /\
  progress_updates (output (snd run))
  = progress_updates (output w) ++
    (if ffmpeg_progress_bar env hide_progress
          (get_frames (snd (last (failing :: after) failing))
           - get_frames (fst (hd failing before)))
     then map scene_frames before
     else []).
Proof.
  intros Hbefore Hfail Hnz run. subst run.
  rewrite <- (last_behind_prefix before failing after (hd failing before)).
  remember (before ++ failing :: after) as scene_list eqn:Hsl.
  destruct scene_list as [| first_scene later]; [destruct before; discriminate |].
  replace (hd failing before) with first_scene
    by (destruct before; cbn in Hsl |- *; congruence).
  rewrite split_video_ffmpeg_run.
  set (total_frames := (get_frames (snd (last (first_scene :: later) first_scene))
                        - get_frames (fst first_scene))%Z).
  set (bar := ffmpeg_progress_bar env hide_progress total_frames).
  set (w0 := ffmpeg_loop_start env template hide_progress total_frames w).
  set (n := List.length (first_scene :: later)) in *. clearbody n.
  rewrite Hsl.
  destruct (ffmpeg_loop_successes_progress input_video_path
              (tokenize_arg_override arg_override) template video_name
              suppress_output bar n before 0 (failing :: after) 0%Z w0)
    as (w1 & Hloop & Hinv1 & Hprog1).
  { intros j sc Hj. unfold w0. rewrite ffmpeg_loop_start_invocations.
    now apply Hbefore. }
  rewrite Hloop.
  assert (Hcode : invoke_command env (List.length (invocations w1))
                    (ffmpeg_call_list env input_video_path
                       (tokenize_arg_override arg_override) template video_name
                       suppress_output n (0 + List.length before) failing)
                  = Ret code).
  { rewrite Hinv1, length_app, SplitterFacts.ffmpeg_calls_length.
    unfold w0. rewrite ffmpeg_loop_start_invocations. exact Hfail. }
  cbn [ffmpeg_loop]. unfold run_command. rewrite Hcode.
  apply Z.eqb_neq in Hnz. rewrite Hnz. cbn [negb].
  split.
  - destruct (ffmpeg_loop_end_output bar total_frames
                (time_time env (clock_reads w))
                (Normal, code,
                 emit (ErrorReturned Ffmpeg code)
                   (if negb suppress_output
                       && (0 + List.length before =? 0)%nat && (1 <? n)%nat
                    then emit InfoFirstSceneShown
                           {| invocations :=
                                invocations w1 ++
                                [ffmpeg_call_list env input_video_path
                                   (tokenize_arg_override arg_override)
                                   template video_name suppress_output n
                                   (0 + List.length before) failing];
                              output := output w1;
                              clock_reads := clock_reads w1 |}
                    else {| invocations :=
                              invocations w1 ++
                              [ffmpeg_call_list env input_video_path
                                 (tokenize_arg_override arg_override)
                                 template video_name suppress_output n
                                 (0 + List.length before) failing];
                            output := output w1;
                            clock_reads := clock_reads w1 |})))
      as [more ->].
    cbn [snd emit output]. rewrite !in_app_iff. cbn [In]. tauto.
  - rewrite ffmpeg_loop_end_progress. cbn [snd].
    rewrite progress_updates_emit.
    destruct (negb suppress_output && (0 + List.length before =? 0)%nat
              && (1 <? n)%nat);
      rewrite ?progress_updates_emit; cbn [output progress_updates];
      rewrite ?app_nil_r, Hprog1; unfold w0;
      now rewrite ffmpeg_loop_start_progress.
Qed.

(** *** A failing scene *)

(** When the backend exits with 0 on the scenes [before] and with a nonzero
    [code] on the next scene, the loop is left there: the invocations are
    those of the scenes up to the failing one, and the splitter returns
    [code], unless the bar is active and no time has elapsed, when the
    division of the speed report raises. *)
Lemma split_video_ffmpeg_fail_fast_outcome
    (input_video_path : string) (before after : list scene) (failing : scene)
    (template video_name arg_override : string)
    (hide_progress suppress_output : bool) (w : world) (code : Z) :
  (forall j sc,
      nth_error before j = Some sc ->
      invoke_command env (List.length (invocations w) + j)
        (ffmpeg_call_list env input_video_path
           (tokenize_arg_override arg_override) template video_name
           suppress_output (List.length (before ++ failing :: after)) j sc)
      = Ret 0%Z) ->
  invoke_command env (List.length (invocations w) + List.length before)
    (ffmpeg_call_list env input_video_path
       (tokenize_arg_override arg_override) template video_name
       suppress_output (List.length (before ++ failing :: after))
       (List.length before) failing)
  = Ret code ->
  code <> 0%Z ->
  let run :=
    split_video_ffmpeg env [input_video_path] (before ++ failing :: after)
      template video_name arg_override hide_progress suppress_output w in
  fst run
  = (if ffmpeg_progress_bar env hide_progress
          (get_frames (snd (last (failing :: after) failing))
           - get_frames (fst (hd failing before)))
        && Qeq_bool (Qminus (time_time env (S (clock_reads w)))
                            (time_time env (clock_reads w))) 0
     then Raise ZeroDivisionError
     else Ret (Some code)) /\
  invocations (snd run)
  = invocations w ++
    ffmpeg_calls env input_video_path (tokenize_arg_override arg_override)
      template video_name suppress_output
      (List.length (before ++ failing :: after)) 0 (before ++ [failing]).
Proof.
  intros Hbefore Hfail Hnz run. subst run.
  rewrite <- (last_behind_prefix before failing after (hd failing before)).
  remember (before ++ failing :: after) as scene_list eqn:Hsl.
  destruct scene_list as [| first_scene later]; [destruct before; discriminate |].
  replace (hd failing before) with first_scene
    by (destruct before; cbn in Hsl |- *; congruence).
  rewrite split_video_ffmpeg_run.
  set (total_frames := (get_frames (snd (last (first_scene :: later) first_scene))
                        - get_frames (fst first_scene))%Z).
  set (bar := ffmpeg_progress_bar env hide_progress total_frames).
  set (w0 := ffmpeg_loop_start env template hide_progress total_frames w).
  set (n := List.length (first_scene :: later)) in *. clearbody n.
  assert (Hended :
    exists w2 : world,
      ffmpeg_loop env input_video_path (tokenize_arg_override arg_override)
        template video_name suppress_output bar n 0 (first_scene :: later)
        0%Z w0
      = (Normal, code, w2) /\
      invocations w2
      = invocations w ++
        ffmpeg_calls env input_video_path (tokenize_arg_override arg_override)
          template video_name suppress_output n 0 (before ++ [failing])).
  { rewrite Hsl.
    destruct (SplitterFacts.ffmpeg_loop_successes env input_video_path
                (tokenize_arg_override arg_override) template video_name
                suppress_output bar n before 0 (failing :: after) 0%Z w0)
      as [w1 [Hloop Hinv1]].
    { intros j sc Hj. unfold w0. rewrite ffmpeg_loop_start_invocations.
      now apply Hbefore. }
    rewrite Hloop.
    destruct (SplitterFacts.ffmpeg_loop_break env input_video_path
                (tokenize_arg_override arg_override) template video_name
                suppress_output bar n (0 + List.length before) failing after
                (match before with [] => 0%Z | _ :: _ => 0%Z end) code w1)
      as [w2 [Hbreak Hinv2]]; [| exact Hnz |].
    { rewrite Hinv1, length_app, SplitterFacts.ffmpeg_calls_length.
      unfold w0. rewrite ffmpeg_loop_start_invocations. exact Hfail. }
    exists w2. split; [exact Hbreak |].
    rewrite Hinv2, Hinv1, SplitterFacts.ffmpeg_calls_app, <- app_assoc.
    unfold w0. now rewrite ffmpeg_loop_start_invocations. }
  destruct Hended as [w2 [Hloop Hinv2]].
  rewrite Hloop. split.
  - rewrite ffmpeg_loop_end_normal.
    now rewrite (ffmpeg_loop_clock _ _ _ _ _ _ _ _ _ _ _ _ _ _ Hloop).
  - rewrite ffmpeg_loop_end_invocations. exact Hinv2.
Qed.

(** C3, on a clock that does not advance: the backend exits with 0 on the
    scenes [before] and with a nonzero [code] on the next scene, the progress
    bar is active, and the two clock readings of the splitter are equal.  The
    loop stops at the failing scene, after one invocation more than [before]
    has scenes, but the splitter does not return [code]: the division of the
    speed report raises [ZeroDivisionError]. *)
Theorem split_video_ffmpeg_fail_fast_zero_elapsed
    (input_video_path : string) (before after : list scene) (failing : scene)
    (template video_name arg_override : string)
    (hide_progress suppress_output : bool) (w : world) (code : Z) :
  (forall j sc,
      nth_error before j = Some sc ->
      invoke_command env (List.length (invocations w) + j)
        (ffmpeg_call_list env input_video_path
           (tokenize_arg_override arg_override) template video_name
           suppress_output (List.length (before ++ failing :: after)) j sc)
      = Ret 0%Z) ->
  invoke_command env (List.length (invocations w) + List.length before)
    (ffmpeg_call_list env input_video_path
       (tokenize_arg_override arg_override) template video_name
       suppress_output (List.length (before ++ failing :: after))
       (List.length before) failing)
  = Ret code ->
  code <> 0%Z ->
  ffmpeg_progress_bar env hide_progress
    (get_frames (snd (last (failing :: after) failing))
     - get_frames (fst (hd failing before))) = true ->
  Qeq_bool (Qminus (time_time env (S (clock_reads w)))
                   (time_time env (clock_reads w))) 0 = true ->
  let run :=
    split_video_ffmpeg env [input_video_path] (before ++ failing :: after)
      template video_name arg_override hide_progress suppress_output w in
  fst run = Raise ZeroDivisionError /\
  List.length (invocations (snd run))
  = (List.length (invocations w) + (List.length before + 1))%nat.
Proof.
  intros Hbefore Hfail Hnz Hbar Hzero run. subst run.
  destruct (split_video_ffmpeg_fail_fast_outcome input_video_path before after
              failing template video_name arg_override hide_progress
              suppress_output w code Hbefore Hfail Hnz) as [Hret Hinv].
  cbv zeta in Hret, Hinv. rewrite Hret, Hinv, Hbar, Hzero.
  split; [reflexivity |].
  rewrite length_app, SplitterFacts.ffmpeg_calls_length, length_app.
  reflexivity.
Qed.

(** X15: one input path, and a scene list in which the backend exits with 0
    on every scene before scene [k] and with a nonzero [code] on scene [k]
    (the scenes [before], the scene [failing], the scenes [after]; so
    [k = length before + 1]).  Then the splitter makes exactly [k]
    invocations, those of the scenes up to [k] in order, and none for the
    scenes after [k]; and it returns [code], provided the progress bar is not
    active or the time elapsed between its two clock readings is not zero. *)
Theorem split_video_ffmpeg_fail_fast_returns
    (input_video_path : string) (before after : list scene) (failing : scene)
    (template video_name arg_override : string)
    (hide_progress suppress_output : bool) (w : world) (code : Z) :
  (forall j sc,
      nth_error before j = Some sc ->
      invoke_command env (List.length (invocations w) + j)
        (ffmpeg_call_list env input_video_path
           (tokenize_arg_override arg_override) template video_name
           suppress_output (List.length (before ++ failing :: after)) j sc)
      = Ret 0%Z) ->
  invoke_command env (List.length (invocations w) + List.length before)
    (ffmpeg_call_list env input_video_path
       (tokenize_arg_override arg_override) template video_name
       suppress_output (List.length (before ++ failing :: after))
       (List.length before) failing)
  = Ret code ->
  code <> 0%Z ->
  let run :=
    split_video_ffmpeg env [input_video_path] (before ++ failing :: after)
      template video_name arg_override hide_progress suppress_output w in
  (ffmpeg_progress_bar env hide_progress
     (get_frames (snd (last (failing :: after) failing))
      - get_frames (fst (hd failing before))) = false \/
   Qeq_bool (Qminus (time_time env (S (clock_reads w)))
                    (time_time env (clock_reads w))) 0 = false ->
   fst run = Ret (Some code)) /\
  invocations (snd run)
  = invocations w ++
    ffmpeg_calls env input_video_path (tokenize_arg_override arg_override)
      template video_name suppress_output
      (List.length (before ++ failing :: after)) 0 (before ++ [failing]) /\
  List.length (invocations (snd run))
  = (List.length (invocations w) + (List.length before + 1))%nat.
Proof.
  intros Hbefore Hfail Hnz run. subst run.
  destruct (split_video_ffmpeg_fail_fast_outcome input_video_path before after
              failing template video_name arg_override hide_progress
              suppress_output w code Hbefore Hfail Hnz) as [Hret Hinv].
  cbv zeta in Hret, Hinv. rewrite Hret, Hinv.
  split; [| split].
  - intros [-> | ->]; [reflexivity | now rewrite andb_false_r].
  - reflexivity.
  - rewrite length_app, SplitterFacts.ffmpeg_calls_length, length_app.
    reflexivity.
Qed.

End Facts.

Import SampleTimecode SampleBackends.

Lemma split_video_ffmpeg_invocations_follow_scenes_witness :
  exists made : list (list string),
    invocations
      (snd (split_video_ffmpeg (failing_from 1 5 None) ["a.mp4"] three_scenes
              "$VIDEO_NAME-$SCENE_NUMBER" "clip" DEFAULT_ARG_OVERRIDE false
              false initial_world))
    = made /\
    (List.length made <= 3)%nat.
Proof.
  destruct (split_video_ffmpeg_invocations_follow_scenes
              (failing_from 1 5 None) "a.mp4" (at_frame 0, at_frame 10)
              [(at_frame 10, at_frame 20); (at_frame 20, at_frame 30)]
              "$VIDEO_NAME-$SCENE_NUMBER" "clip" DEFAULT_ARG_OVERRIDE false
              false initial_world) as (made & Hmade & [_ Hmost] & _).
  exists made. split; [exact Hmade | exact Hmost].
Defined.

Lemma split_video_ffmpeg_all_scenes_witness :
  fst (split_video_ffmpeg (always 0 positive_total) ["a.mp4"] three_scenes
         "$VIDEO_NAME-$SCENE_NUMBER" "clip" DEFAULT_ARG_OVERRIDE false false
         initial_world)
  = Ret (Some 0%Z) /\
  progress_updates
    (output
       (snd (split_video_ffmpeg (always 0 positive_total) ["a.mp4"]
               three_scenes "$VIDEO_NAME-$SCENE_NUMBER" "clip"
               DEFAULT_ARG_OVERRIDE false false initial_world)))
  = [10%Z; 10%Z; 10%Z].
Proof.
  destruct (split_video_ffmpeg_all_scenes (always 0 positive_total) "a.mp4"
              (at_frame 0, at_frame 10)
              [(at_frame 10, at_frame 20); (at_frame 20, at_frame 30)]
              "$VIDEO_NAME-$SCENE_NUMBER" "clip" DEFAULT_ARG_OVERRIDE false
              false initial_world) as (Hret & _ & Hprogress).
  - intros j sc Hj. reflexivity.
  - split; [apply Hret; right; reflexivity | exact Hprogress].
Defined.

Lemma split_video_ffmpeg_invoker_raises_later_witness :
  fst (split_video_ffmpeg (raising_from 1 OSError None) ["a.mp4"] three_scenes
         "$VIDEO_NAME-$SCENE_NUMBER" "clip" DEFAULT_ARG_OVERRIDE false false
         initial_world)
  = Ret (Some 0%Z) /\
  List.length
    (invocations
       (snd (split_video_ffmpeg (raising_from 1 OSError None) ["a.mp4"]
               three_scenes "$VIDEO_NAME-$SCENE_NUMBER" "clip"
               DEFAULT_ARG_OVERRIDE false false initial_world)))
  = 2%nat.
Proof.
  destruct (split_video_ffmpeg_invoker_raises_later (raising_from 1 OSError None)
              OSError "a.mp4" [(at_frame 0, at_frame 10)]
              [(at_frame 20, at_frame 30)] (at_frame 10, at_frame 20)
              "$VIDEO_NAME-$SCENE_NUMBER" "clip" DEFAULT_ARG_OVERRIDE false
              false initial_world) as (Hret & Hcount & _).
  - right; reflexivity.
  - intros j sc Hj. destruct j as [| j]; [reflexivity |].
    destruct j; discriminate Hj.
  - reflexivity.
  - split; [exact Hret | exact Hcount].
Defined.

Lemma split_video_ffmpeg_nonzero_result_witness :
  exists (k : nat) (sc : SampleTimecode.t * SampleTimecode.t),
    nth_error three_scenes k = Some sc /\
    invoke_command (failing_from 1 5 None) (0 + k)
      (ffmpeg_call_list (failing_from 1 5 None) "a.mp4"
         (tokenize_arg_override DEFAULT_ARG_OVERRIDE)
         "$VIDEO_NAME-$SCENE_NUMBER" "clip" false 3 k sc)
    = Ret 5%Z.
Proof.
  destruct (split_video_ffmpeg_nonzero_result (failing_from 1 5 None) "a.mp4"
              (at_frame 0, at_frame 10)
              [(at_frame 10, at_frame 20); (at_frame 20, at_frame 30)]
              "$VIDEO_NAME-$SCENE_NUMBER" "clip" DEFAULT_ARG_OVERRIDE false
              false initial_world 5%Z) as (k & sc & Hk & Hcode & _).
  - reflexivity.
  - discriminate.
  - exists k, sc. split; [exact Hk | exact Hcode].
Defined.

Lemma split_video_ffmpeg_average_speed_witness :
  speed_reports
    (output
       (snd (split_video_ffmpeg (failing_from 1 5 positive_total) ["a.mp4"]
               three_scenes "$VIDEO_NAME-$SCENE_NUMBER" "clip"
               DEFAULT_ARG_OVERRIDE false false initial_world)))
  = [(30%Z, Qminus (inject_Z 1) (inject_Z 0))].
Proof.
  assert (Hreturns : forall k args, exists code,
             invoke_command (failing_from 1 5 positive_total) k args = Ret code).
  { intros k args. unfold failing_from. cbn [invoke_command].
    destruct (k <? 1)%nat; eexists; reflexivity. }
  exact (proj1 (split_video_ffmpeg_average_speed (failing_from 1 5 positive_total)
                  "a.mp4" (at_frame 0, at_frame 10)
                  [(at_frame 10, at_frame 20); (at_frame 20, at_frame 30)]
                  "$VIDEO_NAME-$SCENE_NUMBER" "clip" DEFAULT_ARG_OVERRIDE
                  false false initial_world) Hreturns eq_refl eq_refl).
Defined.

Lemma split_video_ffmpeg_fail_fast_log_witness :
  In (ErrorReturned Ffmpeg 5)
     (output
        (snd (split_video_ffmpeg (failing_from 1 5 positive_total) ["a.mp4"]
                three_scenes "$VIDEO_NAME-$SCENE_NUMBER" "clip"
                DEFAULT_ARG_OVERRIDE false false initial_world))) /\
  progress_updates
    (output
       (snd (split_video_ffmpeg (failing_from 1 5 positive_total) ["a.mp4"]
               three_scenes "$VIDEO_NAME-$SCENE_NUMBER" "clip"
               DEFAULT_ARG_OVERRIDE false false initial_world)))
  = [10%Z].
Proof.
  assert (Hbefore : forall j sc,
             nth_error [(at_frame 0, at_frame 10)] j = Some sc ->
             invoke_command (failing_from 1 5 positive_total)
               (List.length (invocations initial_world) + j)
               (ffmpeg_call_list (failing_from 1 5 positive_total) "a.mp4"
                  (tokenize_arg_override DEFAULT_ARG_OVERRIDE)
                  "$VIDEO_NAME-$SCENE_NUMBER" "clip" false
                  (List.length ([(at_frame 0, at_frame 10)]
                                ++ (at_frame 10, at_frame 20)
                                :: [(at_frame 20, at_frame 30)])) j sc)
             = Ret 0%Z).
  { intros j sc Hj. destruct j as [| j]; [reflexivity |].
    destruct j; discriminate Hj. }
  assert (Hnz : 5%Z <> 0%Z) by discriminate.
  exact (split_video_ffmpeg_fail_fast_log (failing_from 1 5 positive_total)
           "a.mp4" [(at_frame 0, at_frame 10)] [(at_frame 20, at_frame 30)]
           (at_frame 10, at_frame 20) "$VIDEO_NAME-$SCENE_NUMBER" "clip"
           DEFAULT_ARG_OVERRIDE false false initial_world 5%Z
           Hbefore eq_refl Hnz).
Defined.

Lemma split_video_ffmpeg_fail_fast_zero_elapsed_witness :
  fst (split_video_ffmpeg (failing_from_frozen 1 5 positive_total) ["a.mp4"]
         three_scenes "$VIDEO_NAME-$SCENE_NUMBER" "clip" DEFAULT_ARG_OVERRIDE
         false false initial_world)
  = Raise ZeroDivisionError /\
  List.length
    (invocations
       (snd (split_video_ffmpeg (failing_from_frozen 1 5 positive_total)
               ["a.mp4"] three_scenes "$VIDEO_NAME-$SCENE_NUMBER" "clip"
               DEFAULT_ARG_OVERRIDE false false initial_world)))
  = 2%nat.
Proof.
  assert (Hbefore : forall j sc,
             nth_error [(at_frame 0, at_frame 10)] j = Some sc ->
             invoke_command (failing_from_frozen 1 5 positive_total)
               (List.length (invocations initial_world) + j)
               (ffmpeg_call_list (failing_from_frozen 1 5 positive_total)
                  "a.mp4" (tokenize_arg_override DEFAULT_ARG_OVERRIDE)
                  "$VIDEO_NAME-$SCENE_NUMBER" "clip" false
                  (List.length ([(at_frame 0, at_frame 10)]
                                ++ (at_frame 10, at_frame 20)
                                :: [(at_frame 20, at_frame 30)])) j sc)
             = Ret 0%Z).
  { intros j sc Hj. destruct j as [| j]; [reflexivity |].
    destruct j; discriminate Hj. }
  assert (Hnz : 5%Z <> 0%Z) by discriminate.
  exact (split_video_ffmpeg_fail_fast_zero_elapsed
           (failing_from_frozen 1 5 positive_total) "a.mp4"
           [(at_frame 0, at_frame 10)] [(at_frame 20, at_frame 30)]
           (at_frame 10, at_frame 20) "$VIDEO_NAME-$SCENE_NUMBER" "clip"
           DEFAULT_ARG_OVERRIDE false false initial_world 5%Z
           Hbefore eq_refl Hnz eq_refl eq_refl).
Defined.

Lemma split_video_ffmpeg_fail_fast_returns_witness :
  fst (split_video_ffmpeg (failing_from 1 5 positive_total) ["a.mp4"]
         three_scenes "$VIDEO_NAME-$SCENE_NUMBER" "clip" DEFAULT_ARG_OVERRIDE
         false false initial_world)
  = Ret (Some 5%Z) /\
  List.length
    (invocations
       (snd (split_video_ffmpeg (failing_from 1 5 positive_total) ["a.mp4"]
               three_scenes "$VIDEO_NAME-$SCENE_NUMBER" "clip"
               DEFAULT_ARG_OVERRIDE false false initial_world)))
  = 2%nat.
Proof.
  assert (Hbefore : forall j sc,
             nth_error [(at_frame 0, at_frame 10)] j = Some sc ->
             invoke_command (failing_from 1 5 positive_total)
               (List.length (invocations initial_world) + j)
               (ffmpeg_call_list (failing_from 1 5 positive_total)
                  "a.mp4" (tokenize_arg_override DEFAULT_ARG_OVERRIDE)
                  "$VIDEO_NAME-$SCENE_NUMBER" "clip" false
                  (List.length ([(at_frame 0, at_frame 10)]
                                ++ (at_frame 10, at_frame 20)
                                :: [(at_frame 20, at_frame 30)])) j sc)
             = Ret 0%Z).
  { intros j sc Hj. destruct j as [| j]; [reflexivity |].
    destruct j; discriminate Hj. }
  assert (Hnz : 5%Z <> 0%Z) by discriminate.
  destruct (split_video_ffmpeg_fail_fast_returns
              (failing_from 1 5 positive_total) "a.mp4"
              [(at_frame 0, at_frame 10)] [(at_frame 20, at_frame 30)]
              (at_frame 10, at_frame 20) "$VIDEO_NAME-$SCENE_NUMBER" "clip"
              DEFAULT_ARG_OVERRIDE false false initial_world 5%Z
              Hbefore eq_refl Hnz) as (Hret & _ & Hcount).
  split; [apply Hret; right; reflexivity | exact Hcount].
Defined.

End TranscodeFacts.

(** ** The remux splitter's result *)

Module RemuxFacts.

Section Facts.

Context {T : Type} `{FrameTimecode T}.
Variable env : environment.

(** X7: When the invoker returns, the remux splitter returns the exit code of
    the one child process, provided output is suppressed or the time elapsed
    between the two clock readings is not zero: a nonzero code is then logged
    as an error, last, and a zero code logs no error.  With output not
    suppressed and no time elapsed, the division of the speed report raises
    [ZeroDivisionError] out of the splitter, and no error line is logged. *)
Theorem split_video_mkvmerge_result
    (input_video_paths : list string) (scene_list : list scene)
    (template video_name : string) (suppress_output : bool) (w : world)
    (code : Z) :
  input_video_paths <> [] ->
  scene_list <> [] ->
  invoke_command env (List.length (invocations w))
    (mkvmerge_call_list input_video_paths scene_list
       (mkvmerge_output_file_name template video_name) suppress_output)
  = Ret code ->
  let elapsed :=
    Qminus (time_time env (S (clock_reads w))) (time_time env (clock_reads w)) in
  let run :=
    split_video_mkvmerge env input_video_paths scene_list template video_name
      suppress_output w in
  (suppress_output = true \/ Qeq_bool elapsed 0 = false ->
   fst run = Ret (Some code) /\
   (code <> 0%Z ->
    exists earlier : list event,
      output (snd run) = earlier ++ [ErrorReturned Mkvmerge code]) /\
   (code = 0%Z ->
    forall (t : tool) (c : Z),
      In (ErrorReturned t c) (output (snd run)) ->
      In (ErrorReturned t c) (output w))) /\
  (suppress_output = false ->
   Qeq_bool elapsed 0 = true ->
   fst run = Raise ZeroDivisionError /\
   forall (t : tool) (c : Z),
     In (ErrorReturned t c) (output (snd run)) ->
     In (ErrorReturned t c) (output w)).
Proof.
  intros Hpaths Hscenes Hcode elapsed run. subst run elapsed.
  destruct input_video_paths as [| p ps]; [contradiction |].
  destruct scene_list as [| sc scs]; [contradiction |].
  unfold split_video_mkvmerge, run_command, now.
  cbn [invocations emit fst snd clock_reads]. rewrite Hcode.
  split.
  - intros Hfine.
    assert (Hfinish :
      forall w1 : world,
        (forall t c, In (ErrorReturned t c) (output w1) ->
                     In (ErrorReturned t c) (output w)) ->
        let done :=
          (Ret (Some code),
           if negb (Z.eqb code 0) then emit (ErrorReturned Mkvmerge code) w1
           else w1) in
        fst done = Ret (Some code) /\
        (code <> 0%Z ->
         exists earlier : list event,
           output (snd done) = earlier ++ [ErrorReturned Mkvmerge code]) /\
        (code = 0%Z ->
         forall (t : tool) (c : Z),
           In (ErrorReturned t c) (output (snd done)) ->
           In (ErrorReturned t c) (output w))).
    { intros w1 Hw1 done. subst done. split; [reflexivity |]. split.
      - intros Hnz. apply Z.eqb_neq in Hnz. rewrite Hnz. cbn [negb snd].
        eexists. reflexivity.
      - intros -> t c. cbn [Z.eqb negb snd]. apply Hw1. }
    destruct suppress_output; cbn [negb].
    + apply Hfinish. cbn [output emit]. intros t c.
      rewrite ?in_app_iff. cbn [In]. intuition discriminate.
    + destruct Hfine as [Hfalse | Helapsed]; [discriminate |].
      rewrite Helapsed. apply Hfinish. cbn [output emit]. intros t c.
      rewrite ?in_app_iff. cbn [In]. intuition discriminate.
  - intros -> Hzero. cbn [negb]. rewrite Hzero. cbn [fst snd output emit].
    split; [reflexivity |]. intros t c.
    rewrite ?in_app_iff. cbn [In]. intuition discriminate.
Qed.

End Facts.

Import SampleTimecode.

Lemma split_video_mkvmerge_result_witness :
  fst (split_video_mkvmerge (always 1 None) ["a.mp4"; "b.mp4"] three_scenes
         "$VIDEO_NAME" "clip" false initial_world)
  = Ret (Some 1%Z).
Proof.
  assert (Hpaths : ["a.mp4"; "b.mp4"] <> []) by discriminate.
  assert (Hscenes : three_scenes <> []) by discriminate.
  exact (proj1 (proj1 (split_video_mkvmerge_result (always 1 None)
                         ["a.mp4"; "b.mp4"] three_scenes "$VIDEO_NAME" "clip"
                         false initial_world 1%Z Hpaths Hscenes eq_refl)
                  (or_intror eq_refl))).
Defined.

End RemuxFacts.

(** ** Tokens of the encoder arguments *)

Module TokenFacts.

Import PyStrFacts PyRead.
Local Open Scope string_scope.

Lemma split_from_not_nil (sep : ascii) (s : string) :
  forall field : string, split_from sep field s <> [].
Proof.
  induction s as [| c s IH]; intros field; cbn; [discriminate |].
  destruct (Ascii.eqb c sep); [discriminate | apply IH].
Qed.

Lemma concat_cons (sep x : string) (l : list string) :
  l <> [] -> String.concat sep (x :: l) = x ++ sep ++ String.concat sep l.
Proof. destruct l; [contradiction | reflexivity]. Qed.

(** Joining the fields with the separator gives the string back. *)
Lemma join_split_from (sep : ascii) (s : string) :
  forall field : string,
    join (String sep EmptyString) (split_from sep field s) = field ++ s.
Proof.
  unfold join.
  induction s as [| c s IH]; intros field; cbn [split_from].
  - cbn. now rewrite append_nil_r.
  - destruct (Ascii.eqb_spec c sep) as [-> | Hne].
    + rewrite concat_cons by apply split_from_not_nil.
      rewrite IH. reflexivity.
    + rewrite IH, append_assoc. reflexivity.
Qed.

Lemma has_char_append (a : ascii) (u v : string) :
  has_char a (u ++ v) = has_char a u || has_char a v.
Proof.
  induction u as [| c u IH]; [reflexivity |].
  cbn. now rewrite IH, orb_assoc.
Qed.

(** No field holds the separator. *)
Lemma split_from_fields (sep : ascii) (s : string) :
  forall field : string,
    has_char sep field = false ->
    Forall (fun token => has_char sep token = false) (split_from sep field s).
Proof.
  induction s as [| c s IH]; intros field Hfield; cbn [split_from].
  - now constructor.
  - destruct (Ascii.eqb c sep) eqn:Hc.
    + constructor; [exact Hfield | now apply IH].
    + apply IH. rewrite has_char_append, Hfield. cbn.
      rewrite Ascii.eqb_sym in Hc. rewrite Hc. reflexivity.
Qed.

(** There is one field more than there are separators. *)
Lemma split_from_length (sep : ascii) (s : string) :
  forall field : string,
    List.length (split_from sep field s) = S (count_char sep s).
Proof.
  induction s as [| c s IH]; intros field; cbn [split_from count_char];
    [reflexivity |].
  destruct (Ascii.eqb c sep); cbn [List.length]; rewrite IH; reflexivity.
Qed.

(** X8: The override string is cut at every single space, after a backslash
    before a double quote has been dropped: joining the tokens with spaces gives the unescaped
    string back, no token holds a space, and there is one token more than
    there are spaces, so that two spaces in a row, or a space at either end,
    give an empty token. *)
Theorem tokenize_arg_override_tokens (arg_override : string) :
  let unescaped := replace arg_override ("\" ++ double_quote) double_quote in
  join " " (tokenize_arg_override arg_override) = unescaped /\
  Forall (fun token => has_char " " token = false)
         (tokenize_arg_override arg_override) /\
  List.length (tokenize_arg_override arg_override)
  = S (count_char " " unescaped).
Proof.
  unfold tokenize_arg_override, split. cbv zeta. split; [| split].
  - apply (join_split_from " " _ EmptyString).
  - now apply split_from_fields.
  - apply split_from_length.
Qed.

End TokenFacts.

(** ** Output names of the scenes *)

Module OutputNameFacts.

Import PyStrFacts PyRead NamerFacts TokenFacts.
Local Open Scope string_scope.

(** *** Scene numbers *)

Lemma uint_of_string_zeros (k : nat) (d : Decimal.uint) :
  NilEmpty.uint_of_string (zeros k ++ NilEmpty.string_of_uint d)
  = Some (Nat.iter k Decimal.D0 d).
Proof.
  induction k as [| k IH]; cbn [zeros append Nat.iter].
  - apply NilEmpty.usu.
  - cbn [NilEmpty.uint_of_string]. rewrite IH. reflexivity.
Qed.

Lemma of_uint_zeros (k : nat) (d : Decimal.uint) :
  Nat.of_uint (Nat.iter k Decimal.D0 d) = Nat.of_uint d.
Proof.
  induction k as [| k IH]; [reflexivity |].
  cbn [Nat.iter]. rewrite <- IH. reflexivity.
Qed.

(** A number formatted with zeros in front reads back as itself. *)
Lemma int_of_digits_format_0d (width n : nat) :
  int_of_digits (format_0d width n) = Some n.
Proof.
  unfold int_of_digits, format_0d, str_of_nat.
  rewrite uint_of_string_zeros. cbn [option_map].
  now rewrite of_uint_zeros, DecimalNat.Unsigned.of_to.
Qed.

Lemma scene_number_inj (env : environment) (scene_count i j : nat) :
  scene_number env scene_count i = scene_number env scene_count j -> i = j.
Proof.
  intros Heq.
  assert (Hread : Some (i + 1)%nat = Some (j + 1)%nat).
  { unfold scene_number in Heq.
    rewrite <- (int_of_digits_format_0d
                  (Z.to_nat (scene_num_width env scene_count)) (i + 1)),
            <- (int_of_digits_format_0d
                  (Z.to_nat (scene_num_width env scene_count)) (j + 1)).
    now rewrite Heq. }
  injection Hread. lia.
Qed.

(** X9: Whatever the runtime makes of the logarithm, the number of a scene reads
    back as its index counted from one and is at least three characters long;
    so two scenes of a split never share a number. *)
Theorem scene_number_reads_back (env : environment) (scene_count i : nat) :
  int_of_digits (scene_number env scene_count i) = Some (i + 1)%nat /\
  (3 <= String.length (scene_number env scene_count i))%nat /\
  (forall j : nat,
      scene_number env scene_count i = scene_number env scene_count j -> i = j).
Proof.
  split; [apply int_of_digits_format_0d |]. split.
  - unfold scene_number, scene_num_width. rewrite length_format_0d. lia.
  - intros j. apply scene_number_inj.
Qed.

(** *** Substitution *)

(** Text without a dollar sign is copied. *)
Lemma scan_text (m : mapping) (text rest : string) :
  has_char "$" text = false ->
  scan m Text (text ++ rest) = text ++ scan m Text rest.
Proof.
  induction text as [| c text IH]; intros Hno; [reflexivity |].
  cbn [has_char] in Hno. apply orb_false_iff in Hno as [Hc Hno].
  rewrite Ascii.eqb_sym in Hc.
  cbn [append scan]. rewrite Hc, IH by assumption. reflexivity.
Qed.

Lemma scan_text_only (m : mapping) (text : string) :
  has_char "$" text = false -> scan m Text text = text.
Proof.
  intros Hno. rewrite <- (append_nil_r text) at 1.
  rewrite scan_text by assumption. cbn. apply append_nil_r.
Qed.

(** Inside an identifier the scanner takes every identifier character and
    stops at the first other one. *)
Lemma scan_named (m : mapping) (more : string) :
  forall id rest : string,
    all_id_chars more = true ->
    continues_identifier rest = false ->
    scan m (Named id) (more ++ rest)
    = subst_named m (id ++ more) ++ scan m Text rest.
Proof.
  induction more as [| c more IH]; intros id rest Hall Hrest.
  - cbn [append]. rewrite append_nil_r.
    destruct rest as [| c rest]; cbn [scan].
    + now rewrite append_nil_r.
    + cbn in Hrest. rewrite Hrest. reflexivity.
  - cbn in Hall. apply andb_true_iff in Hall as [Hc Hall].
    cbn [append scan]. rewrite Hc, IH by assumption.
    now rewrite append_assoc.
Qed.

Lemma id_start_not_dollar (c : ascii) :
  is_id_start c = true -> Ascii.eqb c "$" = false.
Proof.
  destruct c as [[] [] [] [] [] [] [] []]; intros Hstart;
    try reflexivity; discriminate Hstart.
Qed.

(** A dollar sign with an identifier behind it is a placeholder for the
    whole identifier. *)
Lemma scan_placeholder (m : mapping) (id rest : string) :
  is_identifier id = true ->
  continues_identifier rest = false ->
  scan m Text ("$" ++ id ++ rest) = subst_named m id ++ scan m Text rest.
Proof.
  intros Hid Hrest. destruct id as [| c more]; [discriminate |].
  cbn in Hid. apply andb_true_iff in Hid as [Hstart Hall].
  cbn [append scan]. rewrite Ascii.eqb_refl.
  rewrite (id_start_not_dollar c Hstart), Hstart.
  now rewrite scan_named.
Qed.

Lemma occurs_in_no_head (h : ascii) (x s : string) :
  has_char h s = false -> occurs_in (String h x) s = false.
Proof.
  intros Hno. rewrite <- (append_nil_r s).
  now rewrite occurs_in_skip.
Qed.

Lemma append_cancel_l (u a b : string) : u ++ a = u ++ b -> a = b.
Proof.
  induction u as [| c u IH]; cbn; intros Heq; [exact Heq |].
  injection Heq as Heq. now apply IH.
Qed.

Lemma append_cancel_r (p : string) :
  forall a b : string, a ++ p = b ++ p -> a = b.
Proof.
  assert (Hlonger : forall (c : ascii) (u : string), String c (u ++ p) <> p).
  { intros c u Heq. apply (f_equal String.length) in Heq.
    cbn in Heq. rewrite length_append in Heq. lia. }
  induction a as [| c a IH]; intros b Heq; destruct b as [| d b]; cbn in Heq.
  - reflexivity.
  - symmetry in Heq. now apply Hlonger in Heq.
  - now apply Hlonger in Heq.
  - injection Heq as -> Heq. f_equal. now apply IH.
Qed.

Lemma continues_identifier_append (u v : string) :
  continues_identifier u = false ->
  continues_identifier v = false ->
  continues_identifier (u ++ v) = false.
Proof. destruct u; [intros _ Hv; exact Hv | intros Hu _; exact Hu]. Qed.

(** *** Names *)

(** X11: A template of plain text around [$VIDEO_NAME] and [$SCENE_NUMBER] names
    the output of a scene with the video name and the scene's number in their
    places; so the scenes of a split are written to different files. *)
Theorem ffmpeg_output_file_name_of_scene (env : environment)
    (pre mid post video_name : string) (scene_count i : nat) :
  has_char "$" pre = false ->
  has_char "$" mid = false ->
  has_char "$" post = false ->
  continues_identifier mid = false ->
  continues_identifier post = false ->
  ffmpeg_output_file_name env
    (pre ++ "$VIDEO_NAME" ++ mid ++ "$SCENE_NUMBER" ++ post)
    video_name scene_count i
  = pre ++ video_name ++ mid ++ scene_number env scene_count i ++ post /\
  (forall j : nat,
      ffmpeg_output_file_name env
        (pre ++ "$VIDEO_NAME" ++ mid ++ "$SCENE_NUMBER" ++ post)
        video_name scene_count i
      = ffmpeg_output_file_name env
          (pre ++ "$VIDEO_NAME" ++ mid ++ "$SCENE_NUMBER" ++ post)
          video_name scene_count j ->
      i = j).
Proof.
  intros Hpre Hmid Hpost Hcmid Hcpost.
  assert (Hname : forall k : nat,
    ffmpeg_output_file_name env
      (pre ++ "$VIDEO_NAME" ++ mid ++ "$SCENE_NUMBER" ++ post)
      video_name scene_count k
    = pre ++ video_name ++ mid ++ scene_number env scene_count k ++ post).
  { intros k. unfold ffmpeg_output_file_name, safe_substitute.
    rewrite scan_text by assumption.
    change ("$VIDEO_NAME" ++ mid ++ "$SCENE_NUMBER" ++ post)
      with ("$" ++ "VIDEO_NAME" ++ mid ++ "$SCENE_NUMBER" ++ post).
    rewrite scan_placeholder;
      [| reflexivity | now apply continues_identifier_append].
    rewrite scan_text by assumption.
    change ("$SCENE_NUMBER" ++ post) with ("$" ++ "SCENE_NUMBER" ++ post).
    rewrite scan_placeholder by (reflexivity || assumption).
    rewrite scan_text_only by assumption. reflexivity. }
  split; [apply Hname |].
  intros j Heq. rewrite !Hname in Heq.
  do 3 apply append_cancel_l in Heq. apply append_cancel_r in Heq.
  now apply (scene_number_inj env scene_count).
Qed.

(** X13: A template without a dollar sign is the output name itself, for the
    remux splitter and for every scene of the transcode splitter, which then
    writes all its scenes to one file. *)
Theorem output_file_name_without_placeholders (env : environment)
    (template video_name : string) (scene_count i : nat) :
  has_char "$" template = false ->
  mkvmerge_output_file_name template video_name = template /\
  ffmpeg_output_file_name env template video_name scene_count i = template.
Proof.
  intros Hno. split.
  - unfold mkvmerge_output_file_name, safe_substitute.
    rewrite strip_scene_number_absent by now apply occurs_in_no_head.
    now apply scan_text_only.
  - unfold ffmpeg_output_file_name, safe_substitute. now apply scan_text_only.
Qed.

(** X12: A placeholder with any other name than the two the transcode splitter
    knows stays in the output name as it is written; that is also what happens
    to [$VIDEO_NAME] when an identifier character follows it directly. *)
Theorem ffmpeg_output_file_name_unknown_placeholder (env : environment)
    (pre id post video_name : string) (scene_count i : nat) :
  is_identifier id = true ->
  id <> "VIDEO_NAME" ->
  id <> "SCENE_NUMBER" ->
  has_char "$" pre = false ->
  has_char "$" post = false ->
  continues_identifier post = false ->
  ffmpeg_output_file_name env (pre ++ "$" ++ id ++ post) video_name
    scene_count i
  = pre ++ "$" ++ id ++ post.
Proof.
  intros Hid Hvideo Hnumber Hpre Hpost Hcpost.
  unfold ffmpeg_output_file_name, safe_substitute.
  rewrite scan_text, scan_placeholder, scan_text_only by assumption.
  unfold subst_named. cbn [lookup].
  apply not_eq_sym in Hvideo, Hnumber.
  apply String.eqb_neq in Hvideo, Hnumber. rewrite Hvideo, Hnumber.
  reflexivity.
Qed.

Lemma ends_with_append (a : ascii) (u : string) (c : ascii) (v : string) :
  ends_with a (u ++ String c v) = ends_with a (String c v).
Proof.
  induction u as [| d u IH]; [reflexivity |].
  cbn [append]. rewrite <- IH.
  destruct (u ++ String c v) eqn:Heq; [destruct u; discriminate | reflexivity].
Qed.

Lemma mkvmerge_output_file_name_shape
    (sp : Placeholders.spelling) (pre mid post video_name : string) :
  has_char "$" pre = false ->
  has_char "$" mid = false ->
  has_char "$" post = false ->
  continues_identifier (mid ++ post) = false ->
  (sp = Placeholders.Bare -> ends_with "-" mid = false) ->
  mkvmerge_output_file_name
    (pre ++ "$VIDEO_NAME" ++ mid ++ Placeholders.placeholder sp ++ post)
    video_name
  = pre ++ video_name ++ mid ++ post.
Proof.
  intros Hpre Hmid Hpost Hcont Hend.
  unfold mkvmerge_output_file_name, safe_substitute.
  assert (Hstrip :
    strip_scene_number
      (pre ++ "$VIDEO_NAME" ++ mid ++ Placeholders.placeholder sp ++ post)
    = pre ++ "$VIDEO_NAME" ++ mid ++ post).
  { pose proof (strip_scene_number_pieces
                  [(pre ++ "$VIDEO_NAME" ++ mid, sp)] post) as Hpieces.
    cbn [Placeholders.with_placeholders Placeholders.without_placeholders
         Placeholders.well_split] in Hpieces.
    rewrite !append_assoc in Hpieces.
    change (("$VIDEO_NAME" ++ mid) ++ Placeholders.placeholder sp ++ post)
      with ("$VIDEO_NAME" ++ mid ++ Placeholders.placeholder sp ++ post)
      in Hpieces.
    change (("$VIDEO_NAME" ++ mid) ++ post) with ("$VIDEO_NAME" ++ mid ++ post)
      in Hpieces.
    apply Hpieces.
    - rewrite (occurs_in_skip "$" "SCENE_NUMBER" pre Hpre).
      change ("$VIDEO_NAME" ++ mid ++ post)
        with (String "$" ("VIDEO_NAME" ++ mid ++ post)).
      rewrite occurs_in_cons.
      replace (prefix "$SCENE_NUMBER" (String "$" ("VIDEO_NAME" ++ mid ++ post)))
        with false by reflexivity.
      apply occurs_in_no_head.
      rewrite !has_char_append, Hmid, Hpost. reflexivity.
    - destruct sp; [| reflexivity].
      rewrite andb_true_r. apply negb_true_iff.
      change ("$VIDEO_NAME" ++ mid) with (String "$" ("VIDEO_NAME" ++ mid)).
      rewrite ends_with_append.
      destruct mid as [| c mid]; [reflexivity |].
      change (String "$" ("VIDEO_NAME" ++ String c mid))
        with ("$VIDEO_NAME" ++ String c mid).
      rewrite ends_with_append. now apply Hend. }
  rewrite Hstrip.
  rewrite scan_text by assumption.
  change ("$VIDEO_NAME" ++ mid ++ post) with ("$" ++ "VIDEO_NAME" ++ mid ++ post).
  rewrite scan_placeholder by (reflexivity || assumption).
  rewrite scan_text_only by (rewrite has_char_append, Hmid, Hpost; reflexivity).
  reflexivity.
Qed.

(** X14: For the remux splitter, a template of plain text around [$VIDEO_NAME]
    and one scene-number placeholder, in either spelling, names the output
    with the video name in its place and the placeholder gone. *)
Theorem mkvmerge_output_file_name_of_video
    (sp : Placeholders.spelling) (pre mid post video_name : string) :
  has_char "$" pre = false ->
  has_char "$" mid = false ->
  has_char "$" post = false ->
  continues_identifier (mid ++ post) = false ->
  (sp = Placeholders.Bare -> ends_with "-" mid = false) ->
  mkvmerge_output_file_name
    (pre ++ "$VIDEO_NAME" ++ mid ++ Placeholders.placeholder sp ++ post)
    video_name
  = pre ++ video_name ++ mid ++ post.
Proof. exact (mkvmerge_output_file_name_shape sp pre mid post video_name). Qed.

(** *** Examples *)

Lemma scene_number_reads_back_witness :
  int_of_digits (scene_number (SampleTimecode.always 0 None) 1200 4) = Some 5%nat.
Proof.
  exact (proj1 (scene_number_reads_back (SampleTimecode.always 0 None) 1200 4)).
Defined.

Lemma scene_number_length_exact_witness :
  String.length (scene_number (SampleTimecode.always 0 None) 1200 4) = 4%nat.
Proof.
  assert (Hi : (4 < 1200)%nat) by (apply Nat.ltb_lt; reflexivity).
  exact (scene_number_length_exact (SampleTimecode.always 0 None) 1200 4 Hi
           eq_refl).
Defined.

Lemma ffmpeg_output_file_name_of_scene_witness :
  ffmpeg_output_file_name (SampleTimecode.always 0 None)
    "out/$VIDEO_NAME-$SCENE_NUMBER.mp4" "clip" 3 1
  = "out/clip-002.mp4".
Proof.
  exact (proj1 (ffmpeg_output_file_name_of_scene (SampleTimecode.always 0 None)
                  "out/" "-" ".mp4" "clip" 3 1
                  eq_refl eq_refl eq_refl eq_refl eq_refl)).
Defined.

Lemma output_file_name_without_placeholders_witness :
  ffmpeg_output_file_name (SampleTimecode.always 0 None) "out.mp4" "clip" 3 1
  = "out.mp4".
Proof.
  exact (proj2 (output_file_name_without_placeholders
                  (SampleTimecode.always 0 None) "out.mp4" "clip" 3 1 eq_refl)).
Defined.

Lemma ffmpeg_output_file_name_unknown_placeholder_witness :
  ffmpeg_output_file_name (SampleTimecode.always 0 None) "$VIDEO_NAME_1.mp4"
    "clip" 3 1
  = "$VIDEO_NAME_1.mp4".
Proof.
  assert (Hvideo : "VIDEO_NAME_1" <> "VIDEO_NAME") by discriminate.
  assert (Hnumber : "VIDEO_NAME_1" <> "SCENE_NUMBER") by discriminate.
  exact (ffmpeg_output_file_name_unknown_placeholder
           (SampleTimecode.always 0 None) "" "VIDEO_NAME_1" ".mp4" "clip" 3 1
           eq_refl Hvideo Hnumber eq_refl eq_refl eq_refl).
Defined.

Lemma mkvmerge_output_file_name_of_video_witness :
  mkvmerge_output_file_name "out/$VIDEO_NAME-$SCENE_NUMBER.mkv" "clip"
  = "out/clip.mkv".
Proof.
  assert (Hend : Placeholders.Hyphenated = Placeholders.Bare ->
                 ends_with "-" "" = false) by discriminate.
  exact (mkvmerge_output_file_name_of_video Placeholders.Hyphenated
           "out/" "" ".mkv" "clip" eq_refl eq_refl eq_refl eq_refl Hend).
Defined.

End OutputNameFacts.

(** ** The remux splitter's argument vector *)

Module RemuxVectorFacts.

Import PyStrFacts PyRead NamerFacts TokenFacts OutputNameFacts.

Section Facts.

Context {T : Type} `{FrameTimecode T}.
Variable env : environment.

(** C8: on non-empty lists the remux splitter builds exactly one argument
    vector: the program, [--quiet] when output is suppressed, [-o] with the
    rendered output path, [--split] with the directive [parts:] followed by
    the comma-joined pairs, and the input paths joined with [" +"].  The
    output path is the template with both spellings of the scene-number
    placeholder replaced by nothing and then [VIDEO_NAME] substituted: for
    plain text around [$VIDEO_NAME] and a scene-number placeholder it is that
    text with the video name in its place, and a template without a dollar
    sign is the path itself.  There is one pair per scene, in scene order, and
    the pair of a scene is the timecode text of its own start, a hyphen, and
    the timecode text of its own end. *)
Theorem split_video_mkvmerge_argument_vector
    (input_video_paths : list string) (scene_list : list scene)
    (template video_name : string) (suppress_output : bool) (w : world) :
  input_video_paths <> [] ->
  scene_list <> [] ->
  exists (output_path : string) (pairs : list string),
    invocations
      (snd (split_video_mkvmerge env input_video_paths scene_list template
              video_name suppress_output w))
    = invocations w ++
      [["mkvmerge"] ++ (if suppress_output then ["--quiet"] else []) ++
       ["-o"; output_path;
        "--split"; ("parts:" ++ join "," pairs)%string;
        join " +" input_video_paths]] /\
    output_path
    = safe_substitute
        (replace (replace template "-$SCENE_NUMBER" "") "$SCENE_NUMBER" "")
        [("VIDEO_NAME", video_name)] /\
    (forall (sp : Placeholders.spelling) (pre mid post : string),
        template
        = (pre ++ "$VIDEO_NAME" ++ mid ++ Placeholders.placeholder sp ++ post)%string ->
        has_char "$" pre = false ->
        has_char "$" mid = false ->
        has_char "$" post = false ->
        continues_identifier (mid ++ post) = false ->
        (sp = Placeholders.Bare -> ends_with "-" mid = false) ->
        output_path = (pre ++ video_name ++ mid ++ post)%string) /\
    (has_char "$" template = false -> output_path = template) /\
    List.length pairs = List.length scene_list /\
    (forall (k : nat) (start_time end_time : T),
        nth_error scene_list k = Some (start_time, end_time) ->
        nth_error pairs k
        = Some (get_timecode start_time ++ "-" ++ get_timecode end_time)%string).
Proof.
  intros Hpaths Hscenes.
  destruct input_video_paths as [| p ps]; [contradiction |].
  destruct scene_list as [| sc scs]; [contradiction |].
  exists (mkvmerge_output_file_name template video_name),
         (map part_of_scene (sc :: scs)).
  split; [| split; [| split; [| split; [| split]]]].
  - rewrite SplitterFacts.split_video_mkvmerge_invocations.
    unfold mkvmerge_call_list. destruct suppress_output; reflexivity.
  - reflexivity.
  - intros sp pre mid post -> Hpre Hmid Hpost Hcont Hend.
    now apply mkvmerge_output_file_name_shape.
  - intros Hno. unfold mkvmerge_output_file_name, safe_substitute.
    rewrite strip_scene_number_absent by now apply occurs_in_no_head.
    now apply scan_text_only.
  - apply length_map.
  - intros k start_time end_time Hk.
    rewrite nth_error_map, Hk. reflexivity.
Qed.

End Facts.

Import SampleTimecode.

Lemma split_video_mkvmerge_argument_vector_witness :
  exists pairs : list string,
    invocations
      (snd (split_video_mkvmerge (always 0 None) ["a.mp4"; "b.mp4"]
              three_scenes "out/$VIDEO_NAME-$SCENE_NUMBER.mkv" "clip" false
              initial_world))
    = [["mkvmerge"; "-o"; "out/clip.mkv"; "--split";
        ("parts:" ++ join "," pairs)%string; "a.mp4 +b.mp4"]] /\
    nth_error pairs 1 = Some "00:00:10.000-00:00:20.000".
Proof.
  assert (Hpaths : ["a.mp4"; "b.mp4"] <> []) by discriminate.
  assert (Hscenes : three_scenes <> []) by discriminate.
  destruct (split_video_mkvmerge_argument_vector (always 0 None)
              ["a.mp4"; "b.mp4"] three_scenes
              "out/$VIDEO_NAME-$SCENE_NUMBER.mkv" "clip" false initial_world
              Hpaths Hscenes)
    as (output_path & pairs & Hcall & _ & Hshape & _ & _ & Hpair).
  assert (Hend : Placeholders.Hyphenated = Placeholders.Bare ->
                 ends_with "-" "" = false) by discriminate.
  rewrite (Hshape Placeholders.Hyphenated "out/" "" ".mkv"
             eq_refl eq_refl eq_refl eq_refl eq_refl Hend) in Hcall.
  exists pairs. split; [exact Hcall |].
  exact (Hpair 1%nat (at_frame 10) (at_frame 20) eq_refl).
Defined.

End RemuxVectorFacts.
